(** * server-stats: the journal writer and the event handlers of [app.py]

    A shallow embedding of [JsonlDataWriter] and [StatCollectorClient]
    together with the library calls they rely on ([json.dump],
    [pathlib.Path], [open(..., "a")], [datetime.now().timestamp()]).

    - Python [str] values are sequences of Unicode code points ([pystr]).
    - The journal file holds ASCII text (json.dump escapes everything else),
      modelled as [list ascii].
    - Python [float] values are IEEE binary64 numbers ([PrimFloat.float]);
      their decimal rendering [float.__repr__] is a parameter [float_repr]
      of the serializer.
    - Stateful code runs in a state-and-exception monad over a [world]
      made of the file system, the wall clock and the records handed to
      the logger. *)

From Stdlib Require Import ZArith NArith List Ascii String Decimal Floats Lia.
From Stdlib Require DecimalFacts DecimalPos.
From stdpp Require Import gmap strings list.

Local Open Scope list_scope.
Local Open Scope char_scope.

(** ** Text *)

Definition chars (s : string) : list ascii := list_ascii_of_string s.

Definition LF : ascii := "010".
Definition dquote : ascii := "034".
Definition backslash : ascii := "092".

(** Python [str]: a sequence of code points. *)
Definition pystr := list N.

Definition str (s : string) : pystr := map N_of_ascii (chars s).

(** ** [json.encoder]: string escaping with [ensure_ascii=True] *)

(** One lower-case hexadecimal digit, as produced by the [x] format. *)
Definition hex_digit (n : N) : ascii :=
  if (n <? 10)%N then ascii_of_N (48 + n) else ascii_of_N (87 + n).

(** ['{0:04x}'.format(n)] for [n < 0x10000]. *)
Definition hex4 (n : N) : list ascii :=
  [hex_digit ((n / 4096) mod 16); hex_digit ((n / 256) mod 16);
   hex_digit ((n / 16) mod 16); hex_digit (n mod 16)]%N.

Definition u_escape (n : N) : list ascii := backslash :: "u" :: hex4 n.

(** The [replace] callback of [py_encode_basestring_ascii], applied to every
    code point: [ESCAPE_ASCII] matches the backslash, the double quote and
    everything outside the printable range [' '..'~']; [ESCAPE_DCT] has the
    short escapes and [\u00XX] for the other control characters. *)
Definition escape_char (c : N) : list ascii :=
  if (c =? 92)%N then [backslash; backslash]
  else if (c =? 34)%N then [backslash; dquote]
  else if (c =? 8)%N then [backslash; "b"]
  else if (c =? 12)%N then [backslash; "f"]
  else if (c =? 10)%N then [backslash; "n"]
  else if (c =? 13)%N then [backslash; "r"]
  else if (c =? 9)%N then [backslash; "t"]
  else if ((32 <=? c) && (c <=? 126))%N then [ascii_of_N c]
  else if (c <? 65536)%N then u_escape c
  else
    let n := (c - 65536)%N in
    let s1 := N.lor 55296 (N.land (N.shiftr n 10) 1023) in
    let s2 := N.lor 56320 (N.land n 1023) in
    u_escape s1 ++ u_escape s2.

Definition encode_basestring_ascii (s : pystr) : list ascii :=
  dquote :: flat_map escape_char s ++ [dquote].

(** ** [int.__repr__] *)

Fixpoint uint_chars (d : Decimal.uint) : list ascii :=
  match d with
  | Nil => []
  | D0 d => "0" :: uint_chars d
  | D1 d => "1" :: uint_chars d
  | D2 d => "2" :: uint_chars d
  | D3 d => "3" :: uint_chars d
  | D4 d => "4" :: uint_chars d
  | D5 d => "5" :: uint_chars d
  | D6 d => "6" :: uint_chars d
  | D7 d => "7" :: uint_chars d
  | D8 d => "8" :: uint_chars d
  | D9 d => "9" :: uint_chars d
  end.

Definition int_repr (z : Z) : list ascii :=
  match z with
  | Z0 => ["0"]
  | Zpos p => uint_chars (Pos.to_uint p)
  | Zneg p => "-" :: uint_chars (Pos.to_uint p)
  end.

(** ** JSON values and [json.dump] *)

(** The JSON-serializable Python values: [None], [bool], [int], [float],
    [str], [list] and [dict] with [str] keys.  A [dict] keeps its insertion
    order. *)
#[warnings="-register-all"]
Inductive json : Type :=
| JNull
| JBool (b : bool)
| JInt (z : Z)
| JFloat (f : float)
| JStr (s : pystr)
| JList (l : list json)
| JDict (d : list (pystr * json)).

Definition pydict := list (pystr * json).

(** [d[k] = v]: replaces the value of an existing key in place, appends a
    new key at the end. *)
Fixpoint dict_set (d : pydict) (k : pystr) (v : json) : pydict :=
  match d with
  | [] => [(k, v)]
  | (k', v') :: d' =>
      if decide (k' = k) then (k, v) :: d' else (k', v') :: dict_set d' k v
  end.

Definition dict_keys (d : pydict) : list pystr := map fst d.

(** [', '.join]: the item separator of [json.dump]'s default settings. *)
Fixpoint join_items (items : list (list ascii)) : list ascii :=
  match items with
  | [] => []
  | [x] => x
  | x :: rest => x ++ "," :: " " :: join_items rest
  end.

Section Dump.

(** [float.__repr__], with [json]'s spellings of the non-finite values. *)
Variable float_repr : float -> list ascii.

Fixpoint dumps (v : json) : list ascii :=
  match v with
  | JNull => chars "null"
  | JBool true => chars "true"
  | JBool false => chars "false"
  | JInt z => int_repr z
  | JFloat f => float_repr f
  | JStr s => encode_basestring_ascii s
  | JList l => "[" :: join_items (map dumps l) ++ ["]"]
  | JDict d =>
      "{" :: join_items
               (map (fun kv => encode_basestring_ascii (fst kv)
                                 ++ ":" :: " " :: dumps (snd kv)) d)
          ++ ["}"]
  end.

End Dump.

(** ** The world: file system and wall clock *)

(** What a path refers to.  A path absent from the map does not exist.
    Creating a file and appending to a regular file always succeed: failures
    of the storage itself (permissions, full disk) are not modelled. *)
Inductive node : Type :=
| Dir
| File (content : list ascii).

(** The levels the code logs at. *)
Inductive log_level : Type :=
| DEBUG
| INFO
| ERROR.

(** A log record: its level and its formatted message. *)
Definition log_record : Type := (log_level * pystr)%type.

(** [wall_clock n] is what the [n]-th call of [datetime.now()] returns, as a
    POSIX timestamp; [clock_reads] counts the calls made so far.  [logged]
    holds the records handed to the root logger, oldest first.  The module
    gives that logger two handlers: the console handler shows every record,
    the file handler appends those at level [INFO] and above to [app.log].
    That file and its rotated copies are kept apart from [files], which
    describes the other paths. *)
Record world : Type := World {
  files : gmap string node;
  wall_clock : nat -> float;
  clock_reads : nat;
  logged : list log_record
}.

Definition with_files (w : world) (fs : gmap string node) : world :=
  {| files := fs; wall_clock := wall_clock w; clock_reads := clock_reads w;
     logged := logged w |}.

(** The world after [records] have been logged. *)
Definition add_log (w : world) (records : list log_record) : world :=
  {| files := files w; wall_clock := wall_clock w;
     clock_reads := clock_reads w; logged := logged w ++ records |}.

(** [file_handler.setLevel(INFO)]: the records that reach [app.log]. *)
Definition reaches_file_handler (r : log_record) : bool :=
  match fst r with
  | DEBUG => false
  | INFO => true
  | ERROR => true
  end.

Definition app_log (records : list log_record) : list log_record :=
  List.filter reaches_file_handler records.

(** The exceptions the code can raise. *)
Inductive exn : Type :=
| ValueError
| RuntimeError
| AttributeError
| IsADirectoryError.

(** Computations: they read and change the world and either return a value
    or raise; the changes made before an exception stay. *)
Definition M (A : Type) : Type := world -> world * (exn + A).

Definition ret {A} (a : A) : M A := fun w => (w, inr a).

Definition raise {A} (x : exn) : M A := fun w => (w, inl x).

Definition bind {A B} (c : M A) (k : A -> M B) : M B :=
  fun w =>
    match c w with
    | (w', inl x) => (w', inl x)
    | (w', inr a) => k a w'
    end.

Notation "x <- c1 ;; c2" := (bind c1 (fun x => c2))
  (at level 100, c1 at next level, right associativity).
Notation "c1 ;; c2" := (bind c1 (fun _ => c2))
  (at level 100, right associativity).

(** [logger.debug], [logger.info] and [logger.error], the message already
    formatted. *)
Definition logger_log (level : log_level) (message : pystr) : M unit :=
  fun w => (add_log w [(level, message)], inr tt).

(** [str(z)] for an [int], and [str(s)] for an [Optional[str]]. *)
Definition str_of_int (z : Z) : pystr := map N_of_ascii (int_repr z).

Definition str_of_optstr (s : option pystr) : pystr :=
  match s with
  | Some s => s
  | None => str "None"
  end.

(** [datetime.datetime.now().timestamp()] *)
Definition now_timestamp : M float :=
  fun w =>
    ({| files := files w; wall_clock := wall_clock w;
        clock_reads := S (clock_reads w); logged := logged w |},
     inr (wall_clock w (clock_reads w))).

(** [Path.is_dir()] *)
Definition is_dir (p : string) : M bool :=
  fun w => (w, inr match files w !! p with Some Dir => true | _ => false end).

(** [Path.exists()] *)
Definition exists_ (p : string) : M bool :=
  fun w => (w, inr match files w !! p with Some _ => true | None => false end).

(** [Path.touch()]: creates an empty file unless the path exists. *)
Definition touch (p : string) : M unit :=
  fun w =>
    match files w !! p with
    | Some _ => (w, inr tt)
    | None => (with_files w (<[p := File []]> (files w)), inr tt)
    end.

(** [open(p, "a", encoding="utf-8")]: creates the file when it is missing;
    the handle is the path. *)
Definition open_append (p : string) : M string :=
  fun w =>
    match files w !! p with
    | Some Dir => (w, inl IsADirectoryError)
    | Some (File _) => (w, inr p)
    | None => (with_files w (<[p := File []]> (files w)), inr p)
    end.

(** [f.write(text)] on a handle opened for appending. *)
Definition write (f : string) (text : list ascii) : M unit :=
  fun w =>
    match files w !! f with
    | Some (File c) => (with_files w (<[f := File (c ++ text)]> (files w)), inr tt)
    | _ => (w, inr tt)
    end.

(** ** [Events] *)

Inductive Events : Type :=
| MESSAGE
| RAW_REACTION_ADD
| REACTION_ADD
| MEMBER_JOIN
| MEMBER_REMOVE
| INVITE_CREATE.

Definition Events_value (e : Events) : pystr :=
  match e with
  | MESSAGE => str "message"
  | RAW_REACTION_ADD => str "raw_reaction_add"
  | REACTION_ADD => str "reaction_add"
  | MEMBER_JOIN => str "member_join"
  | MEMBER_REMOVE => str "member_remove"
  | INVITE_CREATE => str "invite_create"
  end.

(** ** [JsonlDataWriter] *)

Record JsonlDataWriter : Type := { outfile : string }.

(** Truth value of an [Optional[Dict]]: [None] and the empty dict are false. *)
Definition truthy (data : option pydict) : bool :=
  match data with
  | Some (_ :: _) => true
  | _ => false
  end.

Definition logged_data (server_ts : float) (event_name : Events)
    (data : option pydict) : pydict :=
  let logged := [(str "timestamp", JFloat server_ts);
                 (str "event", JStr (Events_value event_name))] in
  match data with
  | Some d =>
      if truthy (Some d) then dict_set logged (str "data") (JDict d) else logged
  | None => logged
  end.

Section Writer.

Variable float_repr : float -> list ascii.

(** [JsonlDataWriter.__init__] *)
Definition JsonlDataWriter_init (out : string) : M JsonlDataWriter :=
  d <- is_dir out ;;
  if d : bool then
    logger_log ERROR (str "cannot log to " ++ str out ++ str ": is directory") ;;
    raise ValueError
  else
    e <- exists_ out ;;
    (if negb e then touch out else ret tt) ;;
    ret {| outfile := out |}.

(** [JsonlDataWriter.log] *)
Definition log (self : JsonlDataWriter) (event_name : Events)
    (data : option pydict) : M unit :=
  server_ts <- now_timestamp ;;
  f <- open_append (outfile self) ;;
  write f (dumps float_repr (JDict (logged_data server_ts event_name data))) ;;
  write f [LF].

End Writer.

(** ** The platform objects the handlers read *)

Record User : Type := { user_id : Z; user_name : pystr }.

(** A channel object.  Those of a guild have a [name]; the channel of a
    direct message has none, and reading the attribute raises. *)
Record Channel : Type := { channel_id : Z; channel_name : option pystr }.

Record Message : Type := { author : User; channel : Channel }.

Record PartialEmoji : Type := { emoji_name : option pystr }.

Record RawReactionActionEvent : Type := {
  reaction_channel_id : Z;
  emoji : PartialEmoji;
  member : option User
}.

Record RawMemberRemoveEvent : Type := { user : User }.

Record Invite : Type := { invite_id : pystr; inviter : option User }.

(** [Guild.member_count] is an [int], or [None] until the platform has
    reported it. *)
Record Guild : Type := { member_count : option Z }.

(** The client's caches, as they are when an event is delivered. *)
Record Cache : Type := {
  guilds : gmap Z Guild;
  channels : gmap Z Channel
}.

Definition get_guild (cache : Cache) (id : Z) : option Guild := guilds cache !! id.

Definition get_channel (cache : Cache) (id : Z) : option Channel :=
  channels cache !! id.

(** Attribute access on an object that may be [None]. *)
Definition getattr {A B} (o : option A) (f : A -> B) : M B :=
  match o with
  | Some a => ret (f a)
  | None => raise AttributeError
  end.

(** Access to an attribute that the object may lack. *)
Definition attribute {B} (o : option B) : M B :=
  match o with
  | Some b => ret b
  | None => raise AttributeError
  end.

Definition json_of_optstr (s : option pystr) : json :=
  match s with
  | Some s => JStr s
  | None => JNull
  end.

(** ** [StatCollectorClient] *)

Definition SAPPHIRE_ID : Z := 678344927997853742.

Record StatCollectorClient : Type := {
  guild_id : Z;
  data_writer : JsonlDataWriter
}.

(** [not guild.member_count] *)
Definition count_missing (mc : option Z) : bool :=
  match mc with
  | None => true
  | Some n => (n =? 0)%Z
  end.

(** [StatCollectorClient.__get_current_member_count] *)
Definition get_current_member_count (self : StatCollectorClient)
    (cache : Cache) : M Z :=
  mc <- getattr (get_guild cache (guild_id self)) member_count ;;
  if count_missing mc then
    logger_log ERROR (str "member count is not available!") ;;
    raise RuntimeError
  else ret (default 0%Z mc).

Section Client.

Variable float_repr : float -> list ascii.
Variable self : StatCollectorClient.
Variable cache : Cache.

Definition on_message (message : Message) : M unit :=
  if decide (user_id (author message) = SAPPHIRE_ID) then ret tt
  else
    logger_log DEBUG
      (str "received message from user: "
         ++ str_of_int (user_id (author message))) ;;
    cname <- attribute (channel_name (channel message)) ;;
    count <- get_current_member_count self cache ;;
    log float_repr (data_writer self) MESSAGE
      (Some [(str "author_id", JInt (user_id (author message)));
             (str "author_name", JStr (user_name (author message)));
             (str "channel_id", JInt (channel_id (channel message)));
             (str "channel_name", JStr cname);
             (str "current_member_count", JInt count)]).

Definition on_raw_reaction_add (payload : RawReactionActionEvent) : M unit :=
  logger_log DEBUG
    (str "received a reaction add: "
       ++ str_of_optstr (emoji_name (emoji payload))) ;;
  let channel := get_channel cache (reaction_channel_id payload) in
  cid <- getattr channel channel_id ;;
  oname <- getattr channel channel_name ;;
  cname <- attribute oname ;;
  mname <- getattr (member payload) user_name ;;
  mid <- getattr (member payload) user_id ;;
  count <- get_current_member_count self cache ;;
  log float_repr (data_writer self) REACTION_ADD
    (Some [(str "channel_id", JInt cid);
           (str "channel_name", JStr cname);
           (str "emoji", json_of_optstr (emoji_name (emoji payload)));
           (str "member_name", JStr mname);
           (str "member_id", JInt mid);
           (str "current_member_count", JInt count)]).

Definition on_member_join (member : User) : M unit :=
  logger_log DEBUG (str "new member joined: " ++ str_of_int (user_id member)) ;;
  count <- get_current_member_count self cache ;;
  log float_repr (data_writer self) MEMBER_JOIN
    (Some [(str "member_id", JInt (user_id member));
           (str "current_member_count", JInt count)]).

Definition on_raw_member_remove (payload : RawMemberRemoveEvent) : M unit :=
  logger_log DEBUG
    (str "member removed: " ++ str_of_int (user_id (user payload))) ;;
  count <- get_current_member_count self cache ;;
  log float_repr (data_writer self) MEMBER_REMOVE
    (Some [(str "member_id", JInt (user_id (user payload)));
           (str "current_member_count", JInt count)]).

Definition on_invite_create (invite : Invite) : M unit :=
  logger_log DEBUG (str "invite created") ;;
  iid <- getattr (inviter invite) user_id ;;
  iname <- getattr (inviter invite) user_name ;;
  count <- get_current_member_count self cache ;;
  log float_repr (data_writer self) INVITE_CREATE
    (Some [(str "invite_id", JStr (invite_id invite));
           (str "inviter_id", JInt iid);
           (str "inviter_name", JStr iname);
           (str "current_member_count", JInt count)]).

Definition on_ready : M unit := logger_log INFO (str "application is ready").

End Client.

(** ** Event delivery *)

(** The events the client has a handler for. *)
Inductive event : Type :=
| EvMessage (message : Message)
| EvRawReactionAdd (payload : RawReactionActionEvent)
| EvMemberJoin (member : User)
| EvRawMemberRemove (payload : RawMemberRemoveEvent)
| EvInviteCreate (invite : Invite)
| EvReady.

(** The method an event name is bound to. *)
Definition handle (float_repr : float -> list ascii)
    (self : StatCollectorClient) (cache : Cache) (e : event) : M unit :=
  match e with
  | EvMessage message => on_message float_repr self cache message
  | EvRawReactionAdd payload => on_raw_reaction_add float_repr self cache payload
  | EvMemberJoin member => on_member_join float_repr self cache member
  | EvRawMemberRemove payload => on_raw_member_remove float_repr self cache payload
  | EvInviteCreate invite => on_invite_create float_repr self cache invite
  | EvReady => on_ready
  end.

(** Modelled from the spec: the dispatcher's loop over the event stream,
    which [app.py] inherits from the gateway client and does not define.
    Events are delivered one at a time, each with the caches as they are at
    that moment; the matching handler runs to completion; an exception it
    raises is reported and the next event is processed.  The result is the
    final world and the reported exceptions, in order. *)
Fixpoint dispatch (float_repr : float -> list ascii)
    (self : StatCollectorClient) (stream : list (Cache * event)) (w : world)
    : world * list exn :=
  match stream with
  | [] => (w, [])
  | (cache, e) :: rest =>
      let (w', r) := handle float_repr self cache e w in
      let (w'', reported) := dispatch float_repr self rest w' in
      (w'', match r with inl x => x :: reported | inr _ => reported end)
  end.

(** ** Reading the journal back *)

(** The content of the regular file at [p], if there is one. *)
Definition file_content (w : world) (p : string) : option (list ascii) :=
  match files w !! p with
  | Some (File c) => Some c
  | _ => None
  end.

(** The complete (newline-terminated) lines of a text, without their
    newlines, and the unterminated rest after the last newline. *)
Fixpoint scan_lines (s : list ascii) : list (list ascii) * list ascii :=
  match s with
  | [] => ([], [])
  | c :: s' =>
      let '(ls, t) := scan_lines s' in
      if Ascii.eqb c LF then ([] :: ls, t)
      else match ls with
           | [] => ([], c :: t)
           | l :: ls' => ((c :: l) :: ls', t)
           end
  end.

Definition journal_lines (s : list ascii) : list (list ascii) := fst (scan_lines s).

Definition journal_tail (s : list ascii) : list ascii := snd (scan_lines s).

(** The lines of the journal file of a writer; [None] when the file is
    missing, is a directory or ends in an unterminated line. *)
Definition journal (w : world) (p : string) : option (list (list ascii)) :=
  match file_content w p with
  | Some c => if decide (journal_tail c = []) then Some (journal_lines c) else None
  | None => None
  end.

(** ** The JSON grammar (RFC 8259) *)

Definition is_ws (c : ascii) : bool :=
  let n := N_of_ascii c in ((n =? 32) || (n =? 9) || (n =? 10) || (n =? 13))%N.

Definition is_digit (c : ascii) : bool :=
  let n := N_of_ascii c in ((48 <=? n) && (n <=? 57))%N.

Definition is_digit19 (c : ascii) : bool :=
  let n := N_of_ascii c in ((49 <=? n) && (n <=? 57))%N.

Definition is_hex (c : ascii) : bool :=
  let n := N_of_ascii c in
  (((48 <=? n) && (n <=? 57)) || ((97 <=? n) && (n <=? 102))
   || ((65 <=? n) && (n <=? 70)))%N.

(** The characters that may follow a backslash, [u] apart. *)
Definition is_escape_letter (c : ascii) : bool :=
  let n := N_of_ascii c in
  ((n =? 34) || (n =? 92) || (n =? 47) || (n =? 98) || (n =? 102)
   || (n =? 110) || (n =? 114) || (n =? 116))%N.

(** A character that may stand unescaped inside a string. *)
Definition is_unescaped (c : ascii) : bool :=
  let n := N_of_ascii c in ((32 <=? n) && negb (n =? 34) && negb (n =? 92))%N.

Inductive JsonChars : list ascii -> Prop :=
| chars_end : JsonChars []
| chars_plain c s : is_unescaped c = true -> JsonChars s -> JsonChars (c :: s)
| chars_escape c s :
    is_escape_letter c = true -> JsonChars s -> JsonChars (backslash :: c :: s)
| chars_unicode a b c d s :
    is_hex a = true -> is_hex b = true -> is_hex c = true -> is_hex d = true ->
    JsonChars s -> JsonChars (backslash :: "u" :: a :: b :: c :: d :: s).

Definition JsonString (s : list ascii) : Prop :=
  exists body, s = dquote :: body ++ [dquote] /\ JsonChars body.

Definition all_digits (s : list ascii) : Prop := Forall (fun c => is_digit c = true) s.

Definition JsonInt (s : list ascii) : Prop :=
  s = ["0"] \/ exists d ds, s = d :: ds /\ is_digit19 d = true /\ all_digits ds.

Definition JsonFrac (s : list ascii) : Prop :=
  s = [] \/ exists ds, s = "." :: ds /\ ds <> [] /\ all_digits ds.

Definition JsonExp (s : list ascii) : Prop :=
  s = [] \/
  exists e sign ds,
    s = e :: sign ++ ds /\ (e = "e" \/ e = "E") /\
    (sign = [] \/ sign = ["+"] \/ sign = ["-"]) /\ ds <> [] /\ all_digits ds.

Definition JsonNumber (s : list ascii) : Prop :=
  exists sign i f e,
    s = sign ++ i ++ f ++ e /\ (sign = [] \/ sign = ["-"]) /\
    JsonInt i /\ JsonFrac f /\ JsonExp e.

Definition JsonWs (s : list ascii) : Prop := Forall (fun c => is_ws c = true) s.

Inductive JsonValue : list ascii -> Prop :=
| value_null : JsonValue (chars "null")
| value_true : JsonValue (chars "true")
| value_false : JsonValue (chars "false")
| value_number s : JsonNumber s -> JsonValue s
| value_string s : JsonString s -> JsonValue s
| value_array_empty w : JsonWs w -> JsonValue ("[" :: w ++ ["]"])
| value_array s : JsonElements s -> JsonValue ("[" :: s ++ ["]"])
| value_object_empty w : JsonWs w -> JsonValue ("{" :: w ++ ["}"])
| value_object s : JsonMembers s -> JsonValue ("{" :: s ++ ["}"])
with JsonElements : list ascii -> Prop :=
| elements_last w1 v w2 :
    JsonWs w1 -> JsonValue v -> JsonWs w2 -> JsonElements (w1 ++ v ++ w2)
| elements_more w1 v w2 rest :
    JsonWs w1 -> JsonValue v -> JsonWs w2 -> JsonElements rest ->
    JsonElements (w1 ++ v ++ w2 ++ "," :: rest)
with JsonMembers : list ascii -> Prop :=
| members_last w1 k w2 w3 v w4 :
    JsonWs w1 -> JsonString k -> JsonWs w2 -> JsonWs w3 -> JsonValue v ->
    JsonWs w4 -> JsonMembers (w1 ++ k ++ w2 ++ ":" :: w3 ++ v ++ w4)
| members_more w1 k w2 w3 v w4 rest :
    JsonWs w1 -> JsonString k -> JsonWs w2 -> JsonWs w3 -> JsonValue v ->
    JsonWs w4 -> JsonMembers rest ->
    JsonMembers (w1 ++ k ++ w2 ++ ":" :: w3 ++ v ++ w4 ++ "," :: rest).

(** A journal line is well formed when it is one JSON object and holds no
    line break. *)
Definition well_formed_line (l : list ascii) : Prop :=
  JsonValue l /\ (LF ∉ l) /\ (exists body, l = "{" :: body ++ ["}"]).

(** Every float of a value is rendered as a JSON number: what
    [float.__repr__] does for every finite float. *)
Fixpoint floats_ok (float_repr : float -> list ascii) (v : json) : Prop :=
  match v with
  | JFloat f => JsonNumber (float_repr f)
  | JList l => fold_right (fun x P => floats_ok float_repr x /\ P) True l
  | JDict d => fold_right (fun kv P => floats_ok float_repr (snd kv) /\ P) True d
  | _ => True
  end.

(** ** The journal format of the specification *)

(** The per-kind field sets, as the specification tabulates them; it has no
    row for [raw_reaction_add]. *)
Definition spec_fields (k : Events) : option (list pystr) :=
  match k with
  | MESSAGE =>
      Some [str "author_id"; str "author_name"; str "channel_id";
            str "channel_name"; str "current_member_count"]
  | REACTION_ADD =>
      Some [str "channel_id"; str "channel_name"; str "emoji"; str "member_name";
            str "member_id"; str "current_member_count"]
  | MEMBER_JOIN => Some [str "member_id"; str "current_member_count"]
  | MEMBER_REMOVE => Some [str "member_id"; str "current_member_count"]
  | INVITE_CREATE =>
      Some [str "invite_id"; str "inviter_id"; str "inviter_name";
            str "current_member_count"]
  | RAW_REACTION_ADD => None
  end.

(** The kinds the specification enumerates as observable occurrences. *)
Definition spec_kinds : list Events :=
  [MESSAGE; REACTION_ADD; MEMBER_JOIN; MEMBER_REMOVE; INVITE_CREATE].

(** A string between double quotes, for keys and kinds without characters
    that need escaping. *)
Definition quoted (s : string) : list ascii := dquote :: chars s ++ [dquote].

(** The line layout of the specification:
    [{"timestamp": <float>, "event": "<kind>", "data": {...}}] followed by a
    newline, the [data] member being left out when there is no payload. *)
Definition spec_line (float_repr : float -> list ascii) (ts : float)
    (kind : Events) (data : option pydict) : list ascii :=
  "{" :: quoted "timestamp" ++ chars ": " ++ float_repr ts ++ chars ", "
    ++ quoted "event" ++ chars ": "
    ++ encode_basestring_ascii (Events_value kind)
    ++ (match data with
        | Some d => chars ", " ++ quoted "data" ++ chars ": "
                      ++ dumps float_repr (JDict d)
        | None => []
        end)
    ++ ["}"; LF].

(** The kind under which the specification records each event; the
    readiness notification is not recorded. *)
Definition spec_kind (e : event) : option Events :=
  match e with
  | EvMessage _ => Some MESSAGE
  | EvRawReactionAdd _ => Some REACTION_ADD
  | EvMemberJoin _ => Some MEMBER_JOIN
  | EvRawMemberRemove _ => Some MEMBER_REMOVE
  | EvInviteCreate _ => Some INVITE_CREATE
  | EvReady => None
  end.

(** ** Auxiliary notions for the statements *)

(** The world after a call of [log] that left [c] in the file at [p]. *)
Definition after_log (w : world) (p : string) (c : list ascii) : world :=
  {| files := <[p := File c]> (files w); wall_clock := wall_clock w;
     clock_reads := S (clock_reads w); logged := logged w |}.

(** The text of one record, without the closing newline. *)
Definition record_line (float_repr : float -> list ascii) (ts : float)
    (kind : Events) (data : option pydict) : list ascii :=
  dumps float_repr (JDict (logged_data ts kind data)).

(** A sequence of calls to [JsonlDataWriter.log]. *)
Fixpoint log_all (float_repr : float -> list ascii) (self : JsonlDataWriter)
    (calls : list (Events * option pydict)) : M unit :=
  match calls with
  | [] => ret tt
  | (kind, data) :: rest =>
      log float_repr self kind data ;; log_all float_repr self rest
  end.

(** The lines such a sequence is expected to leave, the first call reading
    the clock for the [n]-th time. *)
Fixpoint lines_from (float_repr : float -> list ascii) (clock : nat -> float)
    (n : nat) (calls : list (Events * option pydict)) : list (list ascii) :=
  match calls with
  | [] => []
  | (kind, data) :: rest =>
      record_line float_repr (clock n) kind data
        :: lines_from float_repr clock (S n) rest
  end.

Definition payload_floats_ok (float_repr : float -> list ascii)
    (data : option pydict) : Prop :=
  match data with
  | Some d => floats_ok float_repr (JDict d)
  | None => True
  end.

(** [d.get(k)] *)
Fixpoint dict_get (d : pydict) (k : pystr) : option json :=
  match d with
  | [] => None
  | (k', v) :: d' => if decide (k' = k) then Some v else dict_get d' k
  end.

Definition is_some {A} (o : option A) : bool :=
  match o with
  | Some _ => true
  | None => false
  end.

(** The channel of the reaction is in the cache and has a name. *)
Definition named_channel (cache : Cache) (payload : RawReactionActionEvent)
    : bool :=
  match get_channel cache (reaction_channel_id payload) with
  | Some ch => is_some (channel_name ch)
  | None => false
  end.

(** The handler of [e] gets as far as the member-count lookup: [e] is not a
    message of the excluded author, and the objects and attributes its
    earlier fields are read from are there. *)
Definition reaches_lookup (cache : Cache) (e : event) : bool :=
  match e with
  | EvMessage message =>
      negb (bool_decide (user_id (author message) = SAPPHIRE_ID))
      && is_some (channel_name (channel message))
  | EvRawReactionAdd payload =>
      named_channel cache payload && is_some (member payload)
  | EvMemberJoin _ => true
  | EvRawMemberRemove _ => true
  | EvInviteCreate invite => is_some (inviter invite)
  | EvReady => false
  end.

(** The record a handler logs when it starts; a message of the excluded
    author is dropped before anything is logged. *)
Definition entry_log (e : event) : list log_record :=
  match e with
  | EvMessage message =>
      if decide (user_id (author message) = SAPPHIRE_ID) then []
      else [(DEBUG, str "received message from user: "
                      ++ str_of_int (user_id (author message)))]
  | EvRawReactionAdd payload =>
      [(DEBUG, str "received a reaction add: "
                 ++ str_of_optstr (emoji_name (emoji payload)))]
  | EvMemberJoin member =>
      [(DEBUG, str "new member joined: " ++ str_of_int (user_id member))]
  | EvRawMemberRemove payload =>
      [(DEBUG, str "member removed: " ++ str_of_int (user_id (user payload)))]
  | EvInviteCreate _ => [(DEBUG, str "invite created")]
  | EvReady => [(INFO, str "application is ready")]
  end.

(** The record of a failed member-count lookup, and that of a constructor
    called on a directory. *)
Definition count_error : log_record :=
  (ERROR, str "member count is not available!").

Definition directory_error (p : string) : log_record :=
  (ERROR, str "cannot log to " ++ str p ++ str ": is directory").

(** The outcome of the member-count lookup, which depends on the cache
    only, and the records the lookup logs with it. *)
Definition lookup_count (self : StatCollectorClient) (cache : Cache)
    : exn + Z :=
  match get_guild cache (guild_id self) with
  | None => inl AttributeError
  | Some g =>
      match member_count g with
      | None => inl RuntimeError
      | Some n => if (n =? 0)%Z then inl RuntimeError else inr n
      end
  end.

Definition lookup_log (r : exn + Z) : list log_record :=
  match r with
  | inl RuntimeError => [count_error]
  | _ => []
  end.

(** The platform reports no usable count for the monitored guild. *)
Definition count_unavailable (self : StatCollectorClient) (cache : Cache) : Prop :=
  exists g, get_guild cache (guild_id self) = Some g /\
            count_missing (member_count g) = true.

(** A persisted record: its timestamp, its kind and its payload. *)
Definition record : Type := float * Events * pydict.

Definition record_ts (r : record) : float := fst (fst r).

Definition record_kind (r : record) : Events := snd (fst r).

(** The text a sequence of records occupies in the journal. *)
Definition records_text (float_repr : float -> list ascii)
    (records : list record) : list ascii :=
  concat (map (fun r => record_line float_repr (record_ts r) (record_kind r)
                          (Some (snd r)) ++ [LF]) records).

(** Timestamps in the order [<=] of binary64. *)
Definition ts_le (a b : float) : Prop := PrimFloat.leb a b = true.

(** ** Concrete inputs for the examples *)

(** [float.__repr__] on the whole numbers of magnitude below [10^16], which
    Python prints in positional notation with a single zero decimal.  The
    examples use no other float; this function prints them all as [NaN]. *)
Definition float_repr_whole (f : float) : list ascii :=
  match Prim2SF f with
  | S754_zero false => chars "0.0"
  | S754_zero true => chars "-0.0"
  | S754_finite s m e =>
      let sign := if s then ["-"] else [] in
      match e with
      | Zneg k =>
          if (Z.pos m mod 2 ^ Z.pos k =? 0)%Z
          then sign ++ int_repr (Z.pos m / 2 ^ Z.pos k) ++ chars ".0"
          else chars "NaN"
      | _ =>
          if (Z.pos m * 2 ^ e <? 10 ^ 16)%Z
          then sign ++ int_repr (Z.pos m * 2 ^ e) ++ chars ".0"
          else chars "NaN"
      end
  | _ => chars "NaN"
  end.

Definition ex_path : string := "data.jsonl"%string.

Definition ex_writer : JsonlDataWriter := {| outfile := ex_path |}.

Definition ex_client : StatCollectorClient :=
  {| guild_id := 1; data_writer := ex_writer |}.

(** A clock that runs forward: readings 1000.0, 1001.0, then 1002.0. *)
Definition ex_clock (n : nat) : float :=
  match n with
  | 0 => 1000%float
  | 1 => 1001%float
  | _ => 1002%float
  end.

(** A clock that is set back after its first reading: 5.0, then 3.0. *)
Definition ex_clock_back (n : nat) : float :=
  match n with
  | O => 5%float
  | S _ => 3%float
  end.

(** An empty journal file at [ex_path]. *)
Definition ex_world : world :=
  {| files := {[ ex_path := File [] ]}; wall_clock := ex_clock; clock_reads := 0;
     logged := [] |}.

Definition ex_world_back : world :=
  {| files := {[ ex_path := File [] ]}; wall_clock := ex_clock_back;
     clock_reads := 0; logged := [] |}.

(** Nothing at [ex_path], and a directory at [ex_path]. *)
Definition ex_world_empty : world :=
  {| files := ∅; wall_clock := ex_clock; clock_reads := 0;
     logged := [] |}.

Definition ex_world_dir : world :=
  {| files := {[ ex_path := Dir ]}; wall_clock := ex_clock; clock_reads := 0;
     logged := [] |}.

(** The guild has 100 members and one known channel. *)
Definition ex_channel : Channel :=
  {| channel_id := 7; channel_name := Some (str "general") |}.

Definition ex_cache : Cache :=
  {| guilds := {[ 1%Z := {| member_count := Some 100%Z |} ]};
     channels := {[ 7%Z := ex_channel ]} |}.

(** The member count of the guild has not been reported yet. *)
Definition ex_cache_nocount : Cache :=
  {| guilds := {[ 1%Z := {| member_count := None |} ]};
     channels := {[ 7%Z := ex_channel ]} |}.

Definition ex_alice : User := {| user_id := 42; user_name := str "alice" |}.

Definition ex_message : Message := {| author := ex_alice; channel := ex_channel |}.

Definition ex_reaction : RawReactionActionEvent :=
  {| reaction_channel_id := 7; emoji := {| emoji_name := Some (str "tada") |};
     member := Some ex_alice |}.

(** ** Induction on JSON values, through the lists they hold *)

Section JsonInduction.

Variable P : json -> Prop.
Hypothesis Hnull : P JNull.
Hypothesis Hbool : forall b, P (JBool b).
Hypothesis Hint : forall z, P (JInt z).
Hypothesis Hfloat : forall f, P (JFloat f).
Hypothesis Hstr : forall s, P (JStr s).
Hypothesis Hlist : forall l, Forall P l -> P (JList l).
Hypothesis Hdict : forall d, Forall (fun kv => P (snd kv)) d -> P (JDict d).

Fixpoint json_nested_ind (v : json) : P v :=
  match v with
  | JNull => Hnull
  | JBool b => Hbool b
  | JInt z => Hint z
  | JFloat f => Hfloat f
  | JStr s => Hstr s
  | JList l =>
      Hlist l ((fix go (l : list json) : Forall P l :=
                  match l with
                  | [] => List.Forall_nil P
                  | x :: l' => List.Forall_cons P x l' (json_nested_ind x) (go l')
                  end) l)
  | JDict d =>
      Hdict d ((fix go (d : list (pystr * json))
                  : Forall (fun kv => P (snd kv)) d :=
                  match d with
                  | [] => List.Forall_nil _
                  | kv :: d' =>
                      List.Forall_cons _ kv d' (json_nested_ind (snd kv)) (go d')
                  end) d)
  end.

End JsonInduction.

(** One [key: value] item of an encoded dict. *)
Definition member_text (item : list ascii) : Prop :=
  exists k v, item = k ++ ":" :: " " :: v /\ JsonString k /\ JsonValue v.

(** What a handler passes to [log] once the lookup has returned [n]. *)
Definition emitted (e : event) (n : Z) (kind : Events) (d : pydict) : Prop :=
  spec_kind e = Some kind
  /\ spec_fields kind = Some (dict_keys d)
  /\ dict_get d (str "current_member_count") = Some (JInt n)
  /\ (forall float_repr, floats_ok float_repr (JDict d)).

(** Two calls of [log], the second with a nested payload. *)
Definition ex_calls : list (Events * option pydict) :=
  [(MEMBER_JOIN, None); (MESSAGE, Some [(str "note", JList [JInt 1; JNull])])].

(** ** Further notions and inputs *)

(** A printable ASCII character, [' '..'~']. *)
Definition is_printable (c : ascii) : bool :=
  let n := N_of_ascii c in ((32 <=? n) && (n <=? 126))%N.

Definition printable (s : list ascii) : Prop :=
  Forall (fun c => is_printable c = true) s.

(** The content of the file at [p], empty when there is none. *)
Definition content_or_empty (w : world) (p : string) : list ascii :=
  match file_content w p with
  | Some c => c
  | None => []
  end.

(** A reaction with a custom emoji whose name is gone, one in a channel the
    cache does not know, and an invite without inviter. *)
Definition ex_reaction_unnamed : RawReactionActionEvent :=
  {| reaction_channel_id := 7; emoji := {| emoji_name := None |};
     member := Some ex_alice |}.

Definition ex_reaction_elsewhere : RawReactionActionEvent :=
  {| reaction_channel_id := 8; emoji := {| emoji_name := Some (str "tada") |};
     member := Some ex_alice |}.

Definition ex_invite_anonymous : Invite :=
  {| invite_id := str "abc"; inviter := None |}.

Definition ex_invite : Invite :=
  {| invite_id := str "abc"; inviter := Some ex_alice |}.

(** The guild is not in the cache. *)
Definition ex_cache_noguild : Cache :=
  {| guilds := ∅; channels := {[ 7%Z := ex_channel ]} |}.

(** A journal whose last line was cut short, and a world with a second
    file beside the journal. *)
Definition ex_world_partial : world :=
  {| files := {[ ex_path := File (chars "{}" ++ LF :: chars "{par") ]};
     wall_clock := ex_clock; clock_reads := 0; logged := [] |}.


(** A journal that already holds the two records of [ex_calls]. *)
Definition ex_world_journal : world :=
  fst (log_all float_repr_whole ex_writer ex_calls ex_world).

(** A direct message: its channel has no name. *)
Definition ex_direct_message : Message :=
  {| author := ex_alice;
     channel := {| channel_id := 9; channel_name := None |} |}.

(** The cache holds a negative member count for the guild. *)
Definition ex_cache_negative : Cache :=
  {| guilds := {[ 1%Z := {| member_count := Some (-1)%Z |} ]};
     channels := {[ 7%Z := ex_channel ]} |}.


(** * Properties *)

Arguments encode_basestring_ascii : simpl never.
Arguments int_repr : simpl never.

(** ** Lines of a text *)

Lemma scan_lines_line (l s : list ascii) :
  LF ∉ l ->
  scan_lines (l ++ LF :: s) = (l :: fst (scan_lines s), snd (scan_lines s)).
Proof.
  induction l as [|c l IH]; intros Hl; simpl.
  - destruct (scan_lines s) as [ls t]. reflexivity.
  - rewrite IH by (intros H; apply Hl; right; exact H).
    destruct (Ascii.eqb_spec c LF) as [->|Hc]; [|reflexivity].
    exfalso. apply Hl. left.
Qed.

Lemma scan_lines_app (a b : list ascii) :
  snd (scan_lines a) = [] ->
  scan_lines (a ++ b)
  = (fst (scan_lines a) ++ fst (scan_lines b), snd (scan_lines b)).
Proof.
  induction a as [|c a IH]; simpl.
  - intros _. destruct (scan_lines b); reflexivity.
  - destruct (scan_lines a) as [ls t] eqn:Ea. simpl in IH.
    destruct (Ascii.eqb c LF).
    + simpl. intros Ht. rewrite (IH Ht). reflexivity.
    + destruct ls as [|l ls']; simpl; intros Ht; [discriminate|].
      rewrite (IH Ht). reflexivity.
Qed.

(** Appending one newline-terminated line to a text of complete lines. *)
Lemma journal_append_line (c l : list ascii) :
  journal_tail c = [] -> LF ∉ l ->
  journal_lines (c ++ l ++ [LF]) = journal_lines c ++ [l]
  /\ journal_tail (c ++ l ++ [LF]) = [].
Proof.
  intros Hc Hl. unfold journal_lines, journal_tail in *.
  rewrite (scan_lines_app c (l ++ [LF]) Hc), (scan_lines_line l [] Hl).
  split; reflexivity.
Qed.

(** ** The encoder produces JSON *)

Lemma hex_digit_is_hex (n : N) : (n < 16)%N -> is_hex (hex_digit n) = true.
Proof.
  intros Hn. rewrite <- (N2Nat.id n).
  assert (Hm : N.to_nat n < 16) by lia.
  revert Hm. generalize (N.to_nat n) as m. intros m Hm.
  do 16 (destruct m as [|m]; [reflexivity|]). lia.
Qed.

Lemma JsonChars_app (a b : list ascii) :
  JsonChars a -> JsonChars b -> JsonChars (a ++ b).
Proof.
  induction 1; intros Hb; simpl; [assumption| | |].
  - apply chars_plain; auto.
  - apply chars_escape; auto.
  - apply chars_unicode; auto.
Qed.

Lemma u_escape_JsonChars (n : N) : JsonChars (u_escape n).
Proof.
  unfold u_escape, hex4.
  apply chars_unicode; try apply chars_end;
    apply hex_digit_is_hex; apply N.mod_lt; discriminate.
Qed.

Lemma escape_char_JsonChars (c : N) : JsonChars (escape_char c).
Proof.
  unfold escape_char.
  repeat (match goal with
          | |- context [if (?a =? ?b)%N then _ else _] =>
              destruct (N.eqb_spec a b);
              [apply chars_escape; [reflexivity | apply chars_end]|]
          end).
  destruct ((32 <=? c) && (c <=? 126))%N eqn:Hp.
  - apply andb_true_iff in Hp as [H1 H2].
    apply N.leb_le in H1. apply N.leb_le in H2.
    apply chars_plain; [|apply chars_end].
    unfold is_unescaped. rewrite N_ascii_embedding by lia.
    apply andb_true_iff; split; [apply andb_true_iff; split|].
    + apply N.leb_le; lia.
    + apply negb_true_iff, N.eqb_neq; assumption.
    + apply negb_true_iff, N.eqb_neq; assumption.
  - destruct (c <? 65536)%N.
    + apply u_escape_JsonChars.
    + apply JsonChars_app; apply u_escape_JsonChars.
Qed.

Lemma encode_basestring_ascii_JsonString (s : pystr) :
  JsonString (encode_basestring_ascii s).
Proof.
  exists (flat_map escape_char s). split; [reflexivity|].
  induction s as [|c s IH]; simpl; [apply chars_end|].
  apply JsonChars_app; [apply escape_char_JsonChars | exact IH].
Qed.

Lemma uint_chars_digits (d : Decimal.uint) : all_digits (uint_chars d).
Proof.
  unfold all_digits.
  induction d; simpl; constructor; (reflexivity || assumption).
Qed.

(** A decimal numeral that normalization leaves alone starts with a digit
    other than zero, unless it is the numeral [0]. *)
Lemma unorm_fixed_head (d : Decimal.uint) :
  Decimal.unorm d = d -> d <> Decimal.zero ->
  exists c ds, uint_chars d = c :: ds /\ is_digit19 c = true.
Proof.
  intros Hn Hz.
  destruct d; simpl; try (eexists _, _; split; reflexivity).
  - discriminate Hn.
  - exfalso. rewrite DecimalFacts.unorm_D0 in Hn.
    destruct (Decimal.uint_eq_dec d Nil) as [->|Hd]; [apply Hz; reflexivity|].
    pose proof (DecimalFacts.nb_digits_unorm d Hd) as Hle.
    rewrite Hn in Hle. simpl in Hle. lia.
Qed.

Lemma pos_to_uint_chars (p : positive) :
  exists c ds, uint_chars (Pos.to_uint p) = c :: ds /\
               is_digit19 c = true /\ all_digits ds.
Proof.
  assert (Hn : Decimal.unorm (Pos.to_uint p) = Pos.to_uint p).
  { rewrite <- DecimalPos.Unsigned.to_of, DecimalPos.Unsigned.of_to.
    reflexivity. }
  destruct (unorm_fixed_head _ Hn (DecimalPos.Unsigned.to_uint_nonzero p))
    as (c & ds & E & Hc).
  exists c, ds. repeat split; try assumption.
  pose proof (uint_chars_digits (Pos.to_uint p)) as Hd.
  rewrite E in Hd. unfold all_digits in *. inversion Hd; assumption.
Qed.

Lemma int_repr_JsonNumber (z : Z) : JsonNumber (int_repr z).
Proof.
  destruct z as [|p|p]; unfold int_repr.
  - exists [], ["0"], [], []. repeat split; auto; left; reflexivity.
  - destruct (pos_to_uint_chars p) as (c & ds & E & Hc & Hd).
    exists [], (uint_chars (Pos.to_uint p)), [], [].
    rewrite !app_nil_r. repeat split; auto; try (left; reflexivity).
    right. exists c, ds. auto.
  - destruct (pos_to_uint_chars p) as (c & ds & E & Hc & Hd).
    exists ["-"], (uint_chars (Pos.to_uint p)), [], [].
    rewrite !app_nil_r. repeat split; auto; try (left; reflexivity).
    right. exists c, ds. auto.
Qed.

(** ** No line break inside an encoded value *)

Lemma digit_not_LF (c : ascii) : is_digit c = true -> c <> LF.
Proof. intros H ->. discriminate H. Qed.

Lemma all_digits_no_LF (s : list ascii) : all_digits s -> LF ∉ s.
Proof.
  unfold all_digits. intros H Hin.
  rewrite Forall_forall in H. apply H in Hin. discriminate Hin.
Qed.

Lemma not_elem_of_app_LF (a b : list ascii) : LF ∉ a -> LF ∉ b -> LF ∉ a ++ b.
Proof. intros Ha Hb. rewrite elem_of_app. tauto. Qed.

Lemma not_elem_of_cons_LF (c : ascii) (s : list ascii) :
  c <> LF -> LF ∉ s -> LF ∉ c :: s.
Proof. intros Hc Hs. rewrite elem_of_cons. intros [E|E]; [congruence | tauto]. Qed.

Lemma JsonNumber_no_LF (s : list ascii) : JsonNumber s -> LF ∉ s.
Proof.
  intros (sign & i & f & e & -> & Hs & Hi & Hf & He).
  repeat apply not_elem_of_app_LF.
  - destruct Hs as [->| ->]; [apply not_elem_of_nil|].
    apply not_elem_of_cons_LF; [discriminate | apply not_elem_of_nil].
  - destruct Hi as [->|(d & ds & -> & Hd & Hds)].
    + apply not_elem_of_cons_LF; [discriminate | apply not_elem_of_nil].
    + apply not_elem_of_cons_LF; [|apply all_digits_no_LF; assumption].
      intros ->. discriminate Hd.
  - destruct Hf as [->|(ds & -> & _ & Hds)]; [apply not_elem_of_nil|].
    apply not_elem_of_cons_LF; [discriminate | apply all_digits_no_LF; assumption].
  - destruct He as [->|(c & sg & ds & -> & Hc & Hsg & _ & Hds)];
      [apply not_elem_of_nil|].
    apply not_elem_of_cons_LF; [destruct Hc as [->| ->]; discriminate|].
    apply not_elem_of_app_LF; [|apply all_digits_no_LF; assumption].
    destruct Hsg as [->|[->| ->]]; [apply not_elem_of_nil| |];
      (apply not_elem_of_cons_LF; [discriminate | apply not_elem_of_nil]).
Qed.

Lemma JsonChars_no_LF (s : list ascii) : JsonChars s -> LF ∉ s.
Proof.
  induction 1.
  - apply not_elem_of_nil.
  - apply not_elem_of_cons_LF; [|assumption]. intros ->. discriminate.
  - apply not_elem_of_cons_LF; [discriminate|].
    apply not_elem_of_cons_LF; [|assumption]. intros ->. discriminate.
  - apply not_elem_of_cons_LF; [discriminate|].
    apply not_elem_of_cons_LF; [discriminate|].
    repeat (apply not_elem_of_cons_LF; [intros ->; discriminate|]).
    assumption.
Qed.

Lemma JsonString_no_LF (s : list ascii) : JsonString s -> LF ∉ s.
Proof.
  intros (body & -> & Hb).
  apply not_elem_of_cons_LF; [discriminate|].
  apply not_elem_of_app_LF; [apply JsonChars_no_LF; assumption|].
  apply not_elem_of_cons_LF; [discriminate | apply not_elem_of_nil].
Qed.

Lemma join_items_no_LF (items : list (list ascii)) :
  Forall (fun x => LF ∉ x) items -> LF ∉ join_items items.
Proof.
  induction 1 as [|x rest Hx Hrest IH]; simpl; [apply not_elem_of_nil|].
  destruct rest as [|y rest']; [assumption|].
  apply not_elem_of_app_LF; [assumption|].
  apply not_elem_of_cons_LF; [discriminate|].
  apply not_elem_of_cons_LF; [discriminate|]. exact IH.
Qed.

Lemma dumps_no_LF (float_repr : float -> list ascii) (v : json) :
  floats_ok float_repr v -> LF ∉ dumps float_repr v.
Proof.
  induction v as [|b|z|f|s|l IH|d IH] using json_nested_ind;
    cbn [dumps floats_ok]; intros Hok.
  - repeat (apply not_elem_of_cons_LF; [discriminate|]). apply not_elem_of_nil.
  - destruct b; repeat (apply not_elem_of_cons_LF; [discriminate|]);
      apply not_elem_of_nil.
  - apply JsonNumber_no_LF, int_repr_JsonNumber.
  - apply JsonNumber_no_LF. exact Hok.
  - apply JsonString_no_LF, encode_basestring_ascii_JsonString.
  - apply not_elem_of_cons_LF; [discriminate|].
    apply not_elem_of_app_LF;
      [|apply not_elem_of_cons_LF; [discriminate | apply not_elem_of_nil]].
    apply join_items_no_LF.
    induction IH as [|x l' Hx _ IHl]; cbn [map fold_right] in *; constructor.
    + apply Hx. apply Hok.
    + apply IHl. apply Hok.
  - apply not_elem_of_cons_LF; [discriminate|].
    apply not_elem_of_app_LF;
      [|apply not_elem_of_cons_LF; [discriminate | apply not_elem_of_nil]].
    apply join_items_no_LF.
    induction IH as [|kv d' Hkv _ IHd]; cbn [map fold_right] in *; constructor.
    + apply not_elem_of_app_LF;
        [apply JsonString_no_LF, encode_basestring_ascii_JsonString|].
      apply not_elem_of_cons_LF; [discriminate|].
      apply not_elem_of_cons_LF; [discriminate|].
      apply Hkv. apply Hok.
    + apply IHd. apply Hok.
Qed.

(** ** Encoded values satisfy the grammar *)

Lemma JsonWs_app (a b : list ascii) : JsonWs a -> JsonWs b -> JsonWs (a ++ b).
Proof. unfold JsonWs. intros Ha Hb. apply Forall_app; split; assumption. Qed.

Lemma JsonWs_space : JsonWs [" "].
Proof. repeat constructor. Qed.

Lemma JsonElements_ws_prefix (w s : list ascii) :
  JsonWs w -> JsonElements s -> JsonElements (w ++ s).
Proof.
  intros Hw Hs. destruct Hs as [w1 v w2 H1 Hv H2 | w1 v w2 rest H1 Hv H2 Hr].
  - rewrite app_assoc. apply elements_last; auto using JsonWs_app.
  - rewrite app_assoc. apply elements_more; auto using JsonWs_app.
Qed.

Lemma JsonMembers_ws_prefix (w s : list ascii) :
  JsonWs w -> JsonMembers s -> JsonMembers (w ++ s).
Proof.
  intros Hw Hs.
  destruct Hs as [w1 k w2 w3 v w4 H1 Hk H2 H3 Hv H4
                 | w1 k w2 w3 v w4 rest H1 Hk H2 H3 Hv H4 Hr].
  - rewrite app_assoc. apply members_last; auto using JsonWs_app.
  - rewrite app_assoc. apply members_more; auto using JsonWs_app.
Qed.

Lemma join_items_elements (items : list (list ascii)) :
  items <> [] -> Forall JsonValue items -> JsonElements (join_items items).
Proof.
  intros Hne H. induction H as [|x rest Hx Hrest IH]; [congruence|].
  destruct rest as [|y rest'].
  - pose proof (elements_last [] x [] (Forall_nil_2 _) Hx (Forall_nil_2 _)) as H.
    simpl in H. rewrite app_nil_r in H. exact H.
  - change (join_items (x :: y :: rest'))
      with ([] ++ x ++ [] ++ "," :: [" "] ++ join_items (y :: rest')).
    apply elements_more; [constructor | assumption | constructor |].
    apply JsonElements_ws_prefix; [apply JsonWs_space|].
    apply IH. discriminate.
Qed.

Lemma join_items_members (items : list (list ascii)) :
  items <> [] -> Forall member_text items -> JsonMembers (join_items items).
Proof.
  intros Hne H. induction H as [|x rest Hx Hrest IH]; [congruence|].
  destruct Hx as (k & v & -> & Hk & Hv).
  destruct rest as [|y rest'].
  - pose proof (members_last [] k [] [" "] v [] (Forall_nil_2 _) Hk
                  (Forall_nil_2 _) JsonWs_space Hv (Forall_nil_2 _)) as H.
    simpl in H. rewrite app_nil_r in H. exact H.
  - change (join_items ((k ++ ":" :: " " :: v) :: y :: rest'))
      with ((k ++ ":" :: " " :: v) ++ "," :: [" "] ++ join_items (y :: rest')).
    replace ((k ++ ":" :: " " :: v) ++ "," :: [" "] ++ join_items (y :: rest'))
      with ([] ++ k ++ [] ++ ":" :: [" "] ++ v ++ []
              ++ "," :: [" "] ++ join_items (y :: rest'))
      by (simpl; rewrite <- app_assoc; reflexivity).
    apply members_more;
      [constructor | assumption | constructor | apply JsonWs_space
       | assumption | constructor |].
    apply JsonMembers_ws_prefix; [apply JsonWs_space|].
    apply IH. discriminate.
Qed.

Lemma dumps_JsonValue (float_repr : float -> list ascii) (v : json) :
  floats_ok float_repr v -> JsonValue (dumps float_repr v).
Proof.
  induction v as [|b|z|f|s|l IH|d IH] using json_nested_ind;
    cbn [dumps floats_ok]; intros Hok.
  - apply value_null.
  - destruct b; [apply value_true | apply value_false].
  - apply value_number, int_repr_JsonNumber.
  - apply value_number. exact Hok.
  - apply value_string, encode_basestring_ascii_JsonString.
  - destruct l as [|x l'].
    + apply (value_array_empty []). constructor.
    + apply value_array. apply join_items_elements; [discriminate|].
      induction IH as [|y l'' Hy _ IHl]; cbn [map fold_right] in *; constructor.
      * apply Hy. apply Hok.
      * apply IHl. apply Hok.
  - destruct d as [|kv d'].
    + apply (value_object_empty []). constructor.
    + apply value_object. apply join_items_members; [discriminate|].
      induction IH as [|y d'' Hy _ IHd]; cbn [map fold_right] in *; constructor.
      * exists (encode_basestring_ascii (fst y)), (dumps float_repr (snd y)).
        split; [reflexivity|]. split.
        -- apply encode_basestring_ascii_JsonString.
        -- apply Hy. apply Hok.
      * apply IHd. apply Hok.
Qed.

(** ** The writer *)

Lemma file_content_Some (w : world) (p : string) (c : list ascii) :
  file_content w p = Some c <-> files w !! p = Some (File c).
Proof.
  unfold file_content. destruct (files w !! p) as [[|c']|]; split; congruence.
Qed.

Lemma file_content_after_log (w : world) (p : string) (c : list ascii) :
  file_content (after_log w p c) p = Some c.
Proof. apply file_content_Some. simpl. apply lookup_insert_eq. Qed.

(** A call of [log] on a journal that is a regular file returns normally,
    reads the clock once and appends the record and a newline. *)
Lemma log_run (float_repr : float -> list ascii) (self : JsonlDataWriter)
    (kind : Events) (data : option pydict) (w : world) (c : list ascii) :
  file_content w (outfile self) = Some c ->
  log float_repr self kind data w
  = (after_log w (outfile self)
       (c ++ record_line float_repr (wall_clock w (clock_reads w)) kind data
          ++ [LF]),
     inr tt).
Proof.
  intros Hc. apply file_content_Some in Hc.
  unfold log, bind, now_timestamp, open_append, write, after_log, with_files.
  simpl. rewrite Hc. simpl. rewrite Hc. simpl.
  rewrite lookup_insert_eq. simpl.
  rewrite insert_insert_eq, <- app_assoc. reflexivity.
Qed.

(** On a directory the call raises before anything is written. *)
Lemma log_run_dir (float_repr : float -> list ascii) (self : JsonlDataWriter)
    (kind : Events) (data : option pydict) (w : world) :
  files w !! outfile self = Some Dir ->
  files (fst (log float_repr self kind data w)) = files w
  /\ snd (log float_repr self kind data w) = inl IsADirectoryError.
Proof.
  intros Hd. unfold log, bind, now_timestamp, open_append. simpl.
  rewrite Hd. split; reflexivity.
Qed.

Lemma record_line_spec_line (float_repr : float -> list ascii) (ts : float)
    (kind : Events) (data : option pydict) :
  record_line float_repr ts kind data ++ [LF]
  = spec_line float_repr ts kind (if truthy data then data else None).
Proof.
  unfold record_line, spec_line, logged_data.
  destruct data as [[|kv d]|]; cbn [truthy dict_set].
  all: repeat (destruct (decide _) as [E|E]; [discriminate E|]; clear E).
  all: cbn [dumps map join_items fst snd].
  all: change (encode_basestring_ascii (str "timestamp")) with (quoted "timestamp").
  all: change (encode_basestring_ascii (str "event")) with (quoted "event").
  all: try change (encode_basestring_ascii (str "data")) with (quoted "data").
  all: generalize (quoted "timestamp") (quoted "event") (quoted "data")
         (float_repr ts) (encode_basestring_ascii (Events_value kind)).
  all: intros; cbn [chars list_ascii_of_string].
  all: repeat (rewrite <- app_assoc || rewrite <- app_comm_cons); cbn [app].
  all: reflexivity.
Qed.

Lemma logged_data_floats_ok (float_repr : float -> list ascii) (ts : float)
    (kind : Events) (data : option pydict) :
  JsonNumber (float_repr ts) -> payload_floats_ok float_repr data ->
  floats_ok float_repr (JDict (logged_data ts kind data)).
Proof.
  intros Hts Hd. unfold logged_data.
  destruct data as [[|kv d]|]; cbn [truthy dict_set].
  all: repeat (destruct (decide _) as [E|E]; [discriminate E|]; clear E).
  all: cbn [floats_ok fold_right snd]; auto.
Qed.

Lemma record_line_well_formed (float_repr : float -> list ascii) (ts : float)
    (kind : Events) (data : option pydict) :
  JsonNumber (float_repr ts) -> payload_floats_ok float_repr data ->
  well_formed_line (record_line float_repr ts kind data).
Proof.
  intros Hts Hd.
  pose proof (logged_data_floats_ok float_repr ts kind data Hts Hd) as Hok.
  unfold well_formed_line, record_line. repeat split.
  - apply dumps_JsonValue; assumption.
  - apply dumps_no_LF; assumption.
  - cbn [dumps]. eexists. reflexivity.
Qed.

(** The records of a sequence of calls, one after the other. *)
Lemma log_all_run (float_repr : float -> list ascii) (self : JsonlDataWriter)
    (calls : list (Events * option pydict)) :
  forall (w : world) (c : list ascii),
    file_content w (outfile self) = Some c ->
    exists w',
      log_all float_repr self calls w = (w', inr tt)
      /\ file_content w' (outfile self)
         = Some (c ++ concat (map (fun l => l ++ [LF])
                                (lines_from float_repr (wall_clock w)
                                   (clock_reads w) calls)))
      /\ wall_clock w' = wall_clock w.
Proof.
  induction calls as [|[kind data] rest IH]; intros w c Hc.
  - exists w. simpl. rewrite app_nil_r. auto.
  - cbn [log_all]. unfold bind. rewrite (log_run _ _ _ _ _ _ Hc).
    cbv beta iota.
    destruct (IH _ _ (file_content_after_log w (outfile self)
                        (c ++ record_line float_repr
                                (wall_clock w (clock_reads w)) kind data
                           ++ [LF])))
      as (w' & Hrun & Hfile & Hclock).
    exists w'. split; [exact Hrun|]. split; [|exact Hclock].
    rewrite Hfile. cbn [lines_from map concat after_log wall_clock clock_reads].
    rewrite <- !app_assoc. reflexivity.
Qed.

Lemma journal_append_lines (ls : list (list ascii)) :
  forall c : list ascii,
    journal_tail c = [] -> Forall (fun l => LF ∉ l) ls ->
    journal_lines (c ++ concat (map (fun l => l ++ [LF]) ls))
    = journal_lines c ++ ls
    /\ journal_tail (c ++ concat (map (fun l => l ++ [LF]) ls)) = [].
Proof.
  induction ls as [|l ls IH]; intros c Hc Hls.
  - simpl. rewrite !app_nil_r. auto.
  - inversion Hls as [|? ? Hl Hls']; subst.
    destruct (journal_append_line c l Hc Hl) as [H1 H2].
    cbn [map concat]. rewrite app_assoc.
    destruct (IH (c ++ l ++ [LF]) H2 Hls') as [H3 H4].
    rewrite H3, H4, H1, <- app_assoc. auto.
Qed.

Lemma lines_from_length (float_repr : float -> list ascii) (clock : nat -> float)
    (calls : list (Events * option pydict)) :
  forall n, length (lines_from float_repr clock n calls) = length calls.
Proof.
  induction calls as [|[kind data] rest IH]; intros n; simpl; [|rewrite IH];
    reflexivity.
Qed.

Lemma lines_from_take (float_repr : float -> list ascii) (clock : nat -> float)
    (calls : list (Events * option pydict)) :
  forall n k,
    lines_from float_repr clock n (take k calls)
    = take k (lines_from float_repr clock n calls).
Proof.
  induction calls as [|[kind data] rest IH]; intros n k; destruct k; simpl;
    try reflexivity.
  rewrite IH. reflexivity.
Qed.

Lemma lines_from_well_formed (float_repr : float -> list ascii)
    (clock : nat -> float) (calls : list (Events * option pydict)) :
  (forall n, JsonNumber (float_repr (clock n))) ->
  Forall (fun call => payload_floats_ok float_repr (snd call)) calls ->
  forall n, Forall well_formed_line (lines_from float_repr clock n calls).
Proof.
  intros Hclock Hcalls.
  induction Hcalls as [|[kind data] rest Hd _ IH]; intros n; simpl;
    constructor; [|apply IH].
  apply record_line_well_formed; [apply Hclock | exact Hd].
Qed.

Lemma journal_after_append (w : world) (p : string) (c l : list ascii) :
  journal_tail c = [] -> LF ∉ l ->
  journal (after_log w p (c ++ l ++ [LF])) p = Some (journal_lines c ++ [l]).
Proof.
  intros Hc Hl. unfold journal. rewrite file_content_after_log.
  destruct (journal_append_line c l Hc Hl) as [H1 H2].
  rewrite H1. destruct (decide _) as [_|Hn]; [reflexivity | contradiction].
Qed.

(** C4: a call of [log] stamps the record with the reading of the wall clock
    it makes itself, appends exactly one line of the layout
    [{"timestamp": <float>, "event": <kind>, "data": {...}}] ended by a
    newline (a single JSON object without a line break inside), and leaves
    the [data] key out, rather than writing [null], when no payload is
    given. *)
Theorem log_appends_one_stamped_line (float_repr : float -> list ascii)
    (self : JsonlDataWriter) (kind : Events) (data : option pydict)
    (w : world) (c : list ascii) :
  file_content w (outfile self) = Some c ->
  JsonNumber (float_repr (wall_clock w (clock_reads w))) ->
  payload_floats_ok float_repr data ->
  let ts := wall_clock w (clock_reads w) in
  log float_repr self kind data w
  = (after_log w (outfile self)
       (c ++ spec_line float_repr ts kind (if truthy data then data else None)),
     inr tt)
  /\ (exists l,
        spec_line float_repr ts kind (if truthy data then data else None)
        = l ++ [LF]
        /\ l = dumps float_repr (JDict (logged_data ts kind data))
        /\ well_formed_line l)
  /\ dict_get (logged_data ts kind data) (str "timestamp") = Some (JFloat ts)
  /\ dict_get (logged_data ts kind data) (str "event")
     = Some (JStr (Events_value kind))
  /\ (data = None ->
      dict_keys (logged_data ts kind data) = [str "timestamp"; str "event"]
      /\ dict_get (logged_data ts kind data) (str "data") = None).
Proof.
  intros Hc Hts Hd ts. split; [|split; [|split; [|split]]].
  - rewrite (log_run _ _ _ _ _ _ Hc), <- record_line_spec_line. reflexivity.
  - exists (record_line float_repr ts kind data).
    split; [symmetry; apply record_line_spec_line|].
    split; [reflexivity|]. apply record_line_well_formed; assumption.
  - unfold logged_data. destruct data as [[|kv d]|]; reflexivity.
  - unfold logged_data. destruct data as [[|kv d]|]; reflexivity.
  - intros ->. split; reflexivity.
Qed.

(** C3: [N] calls of [log] on an empty journal all return and leave exactly
    [N] lines, each a well-formed JSON line, the [i]-th being the record of
    the [i]-th call; the journal after the first [k] calls is the first [k]
    of these lines, so no later call changes a line written before. *)
Theorem log_sequence_appends_in_order (float_repr : float -> list ascii)
    (self : JsonlDataWriter) (calls : list (Events * option pydict))
    (w : world) :
  file_content w (outfile self) = Some [] ->
  (forall n, JsonNumber (float_repr (wall_clock w n))) ->
  Forall (fun call => payload_floats_ok float_repr (snd call)) calls ->
  let lines := lines_from float_repr (wall_clock w) (clock_reads w) calls in
  (exists w',
     log_all float_repr self calls w = (w', inr tt)
     /\ journal w' (outfile self) = Some lines)
  /\ length lines = length calls
  /\ Forall well_formed_line lines
  /\ (forall k, exists wk,
        log_all float_repr self (take k calls) w = (wk, inr tt)
        /\ journal wk (outfile self) = Some (take k lines)).
Proof.
  intros Hc Hclock Hcalls lines.
  pose proof (lines_from_well_formed float_repr (wall_clock w) calls Hclock
                Hcalls (clock_reads w)) as Hwf.
  assert (Hjournal : forall cs,
             Forall well_formed_line
               (lines_from float_repr (wall_clock w) (clock_reads w) cs) ->
             exists w',
               log_all float_repr self cs w = (w', inr tt)
               /\ journal w' (outfile self)
                  = Some (lines_from float_repr (wall_clock w) (clock_reads w) cs)).
  { intros cs Hcs.
    destruct (log_all_run float_repr self cs w [] Hc) as (w' & Hrun & Hfile & _).
    exists w'. split; [exact Hrun|]. unfold journal. rewrite Hfile.
    destruct (journal_append_lines
                (lines_from float_repr (wall_clock w) (clock_reads w) cs) [])
      as [H1 H2]; [reflexivity | |].
    - eapply Forall_impl; [exact Hcs|]. intros l Hl. apply Hl.
    - rewrite H1. destruct (decide _) as [_|Hn]; [reflexivity | contradiction]. }
  split; [apply Hjournal; exact Hwf|].
  split; [apply lines_from_length|].
  split; [exact Hwf|].
  intros k. unfold lines. rewrite <- lines_from_take.
  apply Hjournal. rewrite lines_from_take. apply Forall_take. exact Hwf.
Qed.

Lemma init_on_regular_file (p : string) (w : world) (c : list ascii) :
  file_content w p = Some c ->
  JsonlDataWriter_init p w = (w, inr {| outfile := p |}).
Proof.
  intros Hc. apply file_content_Some in Hc.
  unfold JsonlDataWriter_init, bind, is_dir, exists_, touch, ret, raise.
  simpl. rewrite Hc. simpl. rewrite Hc. reflexivity.
Qed.

(** C5: on a directory the constructor raises [ValueError] (the
    specification's ConfigurationError) and leaves the file system as it
    was, having logged the error; on a path that does not exist it creates
    an empty file there; on a regular file it succeeds and changes
    nothing. *)
Theorem init_by_path_state (p : string) (w : world) :
  JsonlDataWriter_init p w
  = match files w !! p with
    | Some Dir => (add_log w [directory_error p], inl ValueError)
    | Some (File _) => (w, inr {| outfile := p |})
    | None => (with_files w (<[p := File []]> (files w)), inr {| outfile := p |})
    end.
Proof.
  unfold JsonlDataWriter_init, bind, is_dir, exists_, touch, ret, raise,
    logger_log.
  destruct (files w !! p) as [[|c]|] eqn:E; simpl; rewrite ?E; simpl;
    rewrite ?E; reflexivity.
Qed.

(** C6: constructing a writer on a file of [M] complete lines and appending
    one record leaves [M+1] lines, the first [M] being the lines that were
    there, byte for byte. *)
Theorem init_then_log_keeps_lines (float_repr : float -> list ascii)
    (p : string) (kind : Events) (data : option pydict) (w : world)
    (c : list ascii) :
  file_content w p = Some c ->
  journal_tail c = [] ->
  JsonNumber (float_repr (wall_clock w (clock_reads w))) ->
  payload_floats_ok float_repr data ->
  exists w' l,
    (self <- JsonlDataWriter_init p ;; log float_repr self kind data) w
    = (w', inr tt)
    /\ file_content w' p = Some (c ++ l ++ [LF])
    /\ journal w' p = Some (journal_lines c ++ [l])
    /\ length (journal_lines c ++ [l]) = S (length (journal_lines c))
    /\ take (length (journal_lines c)) (journal_lines c ++ [l]) = journal_lines c
    /\ well_formed_line l.
Proof.
  intros Hc Ht Hts Hd.
  pose proof (record_line_well_formed float_repr _ kind data Hts Hd) as Hwf.
  exists (after_log w p
            (c ++ record_line float_repr (wall_clock w (clock_reads w)) kind data
               ++ [LF])),
         (record_line float_repr (wall_clock w (clock_reads w)) kind data).
  split; [|split; [|split; [|split; [|split]]]].
  - unfold bind. rewrite (init_on_regular_file p w c Hc).
    apply (log_run float_repr {| outfile := p |} kind data w c Hc).
  - apply file_content_after_log.
  - apply journal_after_append; [exact Ht | apply Hwf].
  - rewrite length_app. simpl. lia.
  - apply take_app_length.
  - exact Hwf.
Qed.

(** ** The handlers *)

Lemma add_log_nil (w : world) : add_log w [] = w.
Proof. destruct w. unfold add_log. simpl. rewrite app_nil_r. reflexivity. Qed.

Lemma add_log_app (w : world) (a b : list log_record) :
  add_log (add_log w a) b = add_log w (a ++ b).
Proof. unfold add_log. simpl. rewrite app_assoc. reflexivity. Qed.

(** The lookup reads the cache, logs an error when it finds no usable count
    and leaves the rest of the world alone. *)
Lemma get_current_member_count_run (self : StatCollectorClient) (cache : Cache)
    (w : world) :
  get_current_member_count self cache w
  = (add_log w (lookup_log (lookup_count self cache)), lookup_count self cache).
Proof.
  unfold get_current_member_count, lookup_count, bind, getattr, ret, raise,
    logger_log.
  destruct (get_guild cache (guild_id self)) as [g|];
    [|rewrite add_log_nil; reflexivity].
  destruct (member_count g) as [n|]; simpl; [|reflexivity].
  destruct (n =? 0)%Z; simpl; [|rewrite add_log_nil]; reflexivity.
Qed.

Lemma lookup_count_returns (self : StatCollectorClient) (cache : Cache)
    (w w' : world) (n : Z) :
  get_current_member_count self cache w = (w', inr n) ->
  lookup_count self cache = inr n.
Proof. rewrite get_current_member_count_run. congruence. Qed.

Lemma lookup_count_raises (self : StatCollectorClient) (cache : Cache)
    (w w' : world) (x : exn) :
  get_current_member_count self cache w = (w', inl x) ->
  lookup_count self cache = inl x.
Proof. rewrite get_current_member_count_run. congruence. Qed.

(** A count the lookup returns is the count of the cached guild and is not
    zero. *)
Lemma lookup_count_reported (self : StatCollectorClient) (cache : Cache)
    (n : Z) :
  lookup_count self cache = inr n ->
  n <> 0%Z
  /\ exists g, get_guild cache (guild_id self) = Some g
               /\ member_count g = Some n.
Proof.
  unfold lookup_count.
  destruct (get_guild cache (guild_id self)) as [g|]; [|discriminate].
  destruct (member_count g) as [m|] eqn:Hm; [|discriminate].
  destruct (Z.eqb_spec m 0); [discriminate|].
  intros H. injection H as <-. split; [assumption|]. exists g. auto.
Qed.

Lemma count_unavailable_lookup (self : StatCollectorClient) (cache : Cache) :
  count_unavailable self cache -> lookup_count self cache = inl RuntimeError.
Proof.
  intros (g & Hg & Hm). unfold lookup_count. rewrite Hg.
  destruct (member_count g) as [n|]; [|reflexivity].
  simpl in Hm. rewrite Hm. reflexivity.
Qed.

Ltac run_handler :=
  unfold handle, on_message, on_raw_reaction_add, on_member_join,
    on_raw_member_remove, on_invite_create, on_ready, bind, getattr,
    attribute, ret, raise, logger_log, entry_log, named_channel;
  cbv beta iota.

(** A handler that does not reach the lookup returns or raises
    [AttributeError]; it has logged its first record at most and has not
    touched the rest of the world. *)
Lemma handle_no_lookup (float_repr : float -> list ascii)
    (self : StatCollectorClient) (cache : Cache) (e : event) (w : world) :
  reaches_lookup cache e = false ->
  handle float_repr self cache e w = (add_log w (entry_log e), inr tt)
  \/ handle float_repr self cache e w
     = (add_log w (entry_log e), inl AttributeError).
Proof.
  destruct e as [m|p|m|p|i|]; simpl; intros Hr; try discriminate; run_handler.
  - destruct (decide _) as [_|Hn].
    + left. rewrite add_log_nil. reflexivity.
    + rewrite bool_decide_eq_false_2 in Hr by assumption. simpl in Hr.
      destruct (channel_name (channel m)); [discriminate | right; reflexivity].
  - unfold named_channel in Hr.
    destruct (get_channel cache (reaction_channel_id p)) as [ch|];
      [|right; reflexivity].
    destruct (channel_name ch); [|right; reflexivity].
    destruct (member p) as [u|]; [discriminate | right; reflexivity].
  - destruct (inviter i) as [u|]; [discriminate | right; reflexivity].
  - left. reflexivity.
Qed.

(** A handler that reaches a failing lookup raises its exception; beside the
    records it has logged, the world is as it was. *)
Lemma handle_lookup_fails (float_repr : float -> list ascii)
    (self : StatCollectorClient) (cache : Cache) (e : event) (w : world)
    (x : exn) :
  reaches_lookup cache e = true ->
  lookup_count self cache = inl x ->
  handle float_repr self cache e w
  = (add_log w (entry_log e ++ lookup_log (inl x)), inl x).
Proof.
  intros Hr Hc.
  destruct e as [m|p|m|p|i|]; simpl in Hr; try discriminate; run_handler.
  - apply andb_true_iff in Hr as [Hr Hn].
    apply negb_true_iff, bool_decide_eq_false in Hr.
    destruct (decide _) as [He|_]; [contradiction|].
    destruct (channel_name (channel m)); [|discriminate].
    rewrite get_current_member_count_run, Hc, add_log_app. reflexivity.
  - unfold named_channel in Hr.
    destruct (get_channel cache (reaction_channel_id p)) as [ch|];
      [|discriminate].
    destruct (channel_name ch); [|discriminate].
    destruct (member p) as [u|]; [|discriminate].
    rewrite get_current_member_count_run, Hc, add_log_app. reflexivity.
  - rewrite get_current_member_count_run, Hc, add_log_app. reflexivity.
  - rewrite get_current_member_count_run, Hc, add_log_app. reflexivity.
  - destruct (inviter i) as [u|]; [|discriminate].
    rewrite get_current_member_count_run, Hc, add_log_app. reflexivity.
Qed.

(** A handler that reaches a successful lookup calls [log] with the payload
    of its kind. *)
Lemma handle_lookup_returns (float_repr : float -> list ascii)
    (self : StatCollectorClient) (cache : Cache) (e : event) (w : world)
    (n : Z) :
  reaches_lookup cache e = true ->
  lookup_count self cache = inr n ->
  exists kind d,
    emitted e n kind d
    /\ handle float_repr self cache e w
       = log float_repr (data_writer self) kind (Some d)
           (add_log w (entry_log e)).
Proof.
  intros Hr Hc.
  destruct e as [m|p|m|p|i|]; simpl in Hr; try discriminate; run_handler.
  - apply andb_true_iff in Hr as [Hr Hn].
    apply negb_true_iff, bool_decide_eq_false in Hr.
    destruct (decide _) as [He|_]; [contradiction|].
    destruct (channel_name (channel m)); [|discriminate].
    rewrite get_current_member_count_run, Hc. cbn [lookup_log].
    rewrite add_log_nil.
    eexists _, _. split; [|reflexivity]. repeat split; simpl; auto.
  - unfold named_channel in Hr.
    destruct (get_channel cache (reaction_channel_id p)) as [ch|];
      [|discriminate].
    destruct (channel_name ch); [|discriminate].
    destruct (member p) as [u|]; [|discriminate].
    rewrite get_current_member_count_run, Hc. cbn [lookup_log].
    rewrite add_log_nil.
    eexists _, _. split; [|reflexivity].
    repeat split; simpl; auto. destruct (emoji_name (emoji p)); simpl; auto.
  - rewrite get_current_member_count_run, Hc. cbn [lookup_log].
    rewrite add_log_nil.
    eexists _, _. split; [|reflexivity]. repeat split; simpl; auto.
  - rewrite get_current_member_count_run, Hc. cbn [lookup_log].
    rewrite add_log_nil.
    eexists _, _. split; [|reflexivity]. repeat split; simpl; auto.
  - destruct (inviter i) as [u|]; [|discriminate].
    rewrite get_current_member_count_run, Hc. cbn [lookup_log].
    rewrite add_log_nil.
    eexists _, _. split; [|reflexivity]. repeat split; simpl; auto.
Qed.

(** The three outcomes of a handler on a journal that is a regular file:
    it returns without a record, it raises without a record, or it appends
    the record of its kind and returns. *)
Lemma handle_outcome (float_repr : float -> list ascii)
    (self : StatCollectorClient) (cache : Cache) (e : event) (w : world)
    (c : list ascii) :
  file_content w (outfile (data_writer self)) = Some c ->
  (reaches_lookup cache e = false
   /\ handle float_repr self cache e w = (add_log w (entry_log e), inr tt))
  \/ (exists x records,
        handle float_repr self cache e w = (add_log w records, inl x))
  \/ (exists kind d n,
        reaches_lookup cache e = true
        /\ lookup_count self cache = inr n
        /\ emitted e n kind d
        /\ handle float_repr self cache e w
           = (after_log (add_log w (entry_log e))
                (outfile (data_writer self))
                (c ++ record_line float_repr (wall_clock w (clock_reads w))
                        kind (Some d) ++ [LF]),
              inr tt)).
Proof.
  intros Hc. destruct (reaches_lookup cache e) eqn:Hr.
  - destruct (lookup_count self cache) as [x|n] eqn:Hg.
    + right; left. eexists x, _. eapply handle_lookup_fails; eassumption.
    + right; right.
      destruct (handle_lookup_returns float_repr self cache e w n Hr Hg)
        as (kind & d & He & Hh).
      exists kind, d, n. repeat split; try assumption; try apply He.
      rewrite Hh.
      apply (log_run float_repr (data_writer self) kind (Some d)
               (add_log w (entry_log e)) c Hc).
  - destruct (handle_no_lookup float_repr self cache e w Hr) as [H|H].
    + left. auto.
    + right; left. eauto.
Qed.

(** A handler that raises has written nothing and has not read the clock:
    it has only logged. *)
Lemma handle_raises_unchanged (float_repr : float -> list ascii)
    (self : StatCollectorClient) (cache : Cache) (e : event) (w : world)
    (c : list ascii) (x : exn) :
  file_content w (outfile (data_writer self)) = Some c ->
  snd (handle float_repr self cache e w) = inl x ->
  exists records, handle float_repr self cache e w = (add_log w records, inl x).
Proof.
  intros Hc Hx.
  destruct (handle_outcome float_repr self cache e w c Hc)
    as [[_ H]|[(y & records & H)|(kind & d & n & _ & _ & _ & H)]];
    rewrite H in Hx |- *; simpl in Hx; try discriminate.
  exists records. congruence.
Qed.

Lemma emitted_payload_nonempty (e : event) (n : Z) (kind : Events) (d : pydict) :
  emitted e n kind d -> truthy (Some d) = true.
Proof.
  intros (_ & Hf & _). destruct d; [|reflexivity].
  destruct kind; discriminate Hf.
Qed.

Lemma logged_data_payload (ts : float) (kind : Events) (d : pydict) :
  truthy (Some d) = true ->
  logged_data ts kind (Some d)
  = [(str "timestamp", JFloat ts); (str "event", JStr (Events_value kind));
     (str "data", JDict d)].
Proof. intros Hd. unfold logged_data. rewrite Hd. reflexivity. Qed.

(** C2: whenever a handler writes to the journal, it appends one record
    whose kind is that of the event and whose [data] object has exactly the
    fields the format table lists for that kind, in that order. *)
Theorem emitted_data_has_spec_fields (float_repr : float -> list ascii)
    (self : StatCollectorClient) (cache : Cache) (e : event) (w : world)
    (c : list ascii) :
  file_content w (outfile (data_writer self)) = Some c ->
  file_content (fst (handle float_repr self cache e w))
    (outfile (data_writer self)) <> Some c ->
  exists kind d,
    spec_kind e = Some kind
    /\ spec_fields kind = Some (dict_keys d)
    /\ handle float_repr self cache e w
       = (after_log (add_log w (entry_log e)) (outfile (data_writer self))
            (c ++ dumps float_repr
                    (JDict [(str "timestamp",
                             JFloat (wall_clock w (clock_reads w)));
                            (str "event", JStr (Events_value kind));
                            (str "data", JDict d)])
               ++ [LF]),
          inr tt).
Proof.
  intros Hc Hchanged.
  destruct (handle_outcome float_repr self cache e w c Hc)
    as [[_ H]|[(y & records & H)|(kind & d & n & _ & _ & He & H)]].
  - rewrite H in Hchanged. contradiction.
  - rewrite H in Hchanged. contradiction.
  - exists kind, d. split; [apply He|]. split; [apply He|].
    rewrite H. unfold record_line.
    rewrite (logged_data_payload _ _ _ (emitted_payload_nonempty _ _ _ _ He)).
    reflexivity.
Qed.

(** C7, as amended: a message of the excluded author returns at once and
    leaves the world as it is; any other message appends the [message]
    record once its channel has a name and the member-count lookup has
    returned; when the channel has no name (a direct message) or the lookup
    raises, the exception propagates and nothing is written. *)
Theorem on_message_excluded_or_recorded (float_repr : float -> list ascii)
    (self : StatCollectorClient) (cache : Cache) (message : Message)
    (w : world) :
  (user_id (author message) = SAPPHIRE_ID ->
   on_message float_repr self cache message w = (w, inr tt))
  /\ (user_id (author message) <> SAPPHIRE_ID ->
      forall c cname n,
        file_content w (outfile (data_writer self)) = Some c ->
        channel_name (channel message) = Some cname ->
        get_current_member_count self cache w = (w, inr n) ->
        on_message float_repr self cache message w
        = (after_log (add_log w (entry_log (EvMessage message)))
             (outfile (data_writer self))
             (c ++ record_line float_repr (wall_clock w (clock_reads w))
                     MESSAGE
                     (Some [(str "author_id", JInt (user_id (author message)));
                            (str "author_name",
                             JStr (user_name (author message)));
                            (str "channel_id",
                             JInt (channel_id (channel message)));
                            (str "channel_name", JStr cname);
                            (str "current_member_count", JInt n)])
                ++ [LF]),
           inr tt))
  /\ (user_id (author message) <> SAPPHIRE_ID ->
      channel_name (channel message) = None ->
      on_message float_repr self cache message w
      = (add_log w (entry_log (EvMessage message)), inl AttributeError))
  /\ (user_id (author message) <> SAPPHIRE_ID ->
      forall cname w' x,
        channel_name (channel message) = Some cname ->
        get_current_member_count self cache w = (w', inl x) ->
        on_message float_repr self cache message w
        = (add_log w (entry_log (EvMessage message) ++ lookup_log (inl x)),
           inl x)).
Proof.
  unfold on_message, bind, attribute, ret, raise, logger_log, entry_log.
  repeat split.
  - intros He. destruct (decide _) as [_|Hn]; [reflexivity | contradiction].
  - intros Hne c cname n Hc Hname Hg.
    destruct (decide _) as [He|_]; [contradiction|]. rewrite Hname.
    apply lookup_count_returns in Hg.
    rewrite get_current_member_count_run, Hg. cbn [lookup_log].
    rewrite add_log_nil.
    apply (log_run float_repr (data_writer self) MESSAGE _
             (add_log w _) c Hc).
  - intros Hne Hname. destruct (decide _) as [He|_]; [contradiction|].
    rewrite Hname. reflexivity.
  - intros Hne cname w' x Hname Hg.
    destruct (decide _) as [He|_]; [contradiction|]. rewrite Hname.
    apply lookup_count_raises in Hg.
    rewrite get_current_member_count_run, Hg, add_log_app. reflexivity.
Qed.

(** C8: when the platform reports no count for the guild, the lookup logs
    the error and raises [RuntimeError] (the specification's
    MemberCountUnavailableError) instead of returning a value; no handler
    changes the world beyond logging, so no line, whole or partial, is
    written; and every handler that reaches the lookup fails with that
    [RuntimeError]. *)
Theorem lookup_failure_drops_event (float_repr : float -> list ascii)
    (self : StatCollectorClient) (cache : Cache) (e : event) (w : world) :
  count_unavailable self cache ->
  get_current_member_count self cache w
  = (add_log w [count_error], inl RuntimeError)
  /\ (exists records,
        fst (handle float_repr self cache e w) = add_log w records)
  /\ (reaches_lookup cache e = true ->
      handle float_repr self cache e w
      = (add_log w (entry_log e ++ [count_error]), inl RuntimeError)).
Proof.
  intros Hu. pose proof (count_unavailable_lookup self cache Hu) as Hg.
  split; [rewrite get_current_member_count_run, Hg; reflexivity|].
  destruct (reaches_lookup cache e) eqn:Hr.
  - rewrite (handle_lookup_fails float_repr self cache e w RuntimeError Hr Hg).
    split; [eexists; reflexivity | reflexivity].
  - split; [|discriminate].
    destruct (handle_no_lookup float_repr self cache e w Hr) as [H|H];
      rewrite H; eexists; reflexivity.
Qed.

(** C10, as amended: the lookup raises when the reported count is zero, as
    it does when there is none; a handler either writes nothing or appends a
    record whose [current_member_count] is the count of the cached guild, an
    integer other than zero, hence strictly positive when that count is not
    negative. *)
Theorem recorded_member_count_nonzero (float_repr : float -> list ascii)
    (self : StatCollectorClient) (cache : Cache) (e : event) (w : world) :
  (forall g, get_guild cache (guild_id self) = Some g ->
             member_count g = Some 0%Z \/ member_count g = None ->
             get_current_member_count self cache w
             = (add_log w [count_error], inl RuntimeError))
  /\ (forall c,
        file_content w (outfile (data_writer self)) = Some c ->
        file_content (fst (handle float_repr self cache e w))
          (outfile (data_writer self)) = Some c
        \/ exists kind d z g,
             handle float_repr self cache e w
             = (after_log (add_log w (entry_log e))
                  (outfile (data_writer self))
                  (c ++ record_line float_repr (wall_clock w (clock_reads w))
                          kind (Some d) ++ [LF]),
                inr tt)
             /\ dict_get d (str "current_member_count") = Some (JInt z)
             /\ get_guild cache (guild_id self) = Some g
             /\ member_count g = Some z
             /\ z <> 0%Z
             /\ ((0 <= z)%Z -> (0 < z)%Z)).
Proof.
  split.
  - intros g Hg Hm.
    rewrite get_current_member_count_run,
      (count_unavailable_lookup self cache); [reflexivity|].
    exists g. split; [exact Hg|]. destruct Hm as [-> | ->]; reflexivity.
  - intros c Hc.
    destruct (handle_outcome float_repr self cache e w c Hc)
      as [[_ H]|[(y & records & H)|(kind & d & n & _ & Hg & He & H)]].
    + left. rewrite H. exact Hc.
    + left. rewrite H. exact Hc.
    + right. destruct (lookup_count_reported self cache n Hg)
        as (Hn & g & Hguild & Hcount).
      exists kind, d, n, g. split; [exact H|]. split; [apply He|].
      repeat split; try assumption. lia.
Qed.

(** ** The event stream *)

(** C1: when the handler of an event raises, the dispatcher reports the
    exception and goes on: beside what the handler has logged, the world is
    as if the event had not been delivered, the rest of the stream is
    processed from there, and the next event, if its handler reaches a
    successful lookup, appends one well-formed line, the record of its
    kind. *)
Theorem failed_event_is_isolated (float_repr : float -> list ascii)
    (self : StatCollectorClient) (cache cache' : Cache) (e e' : event)
    (rest : list (Cache * event)) (w : world) (c : list ascii) (x : exn) :
  file_content w (outfile (data_writer self)) = Some c ->
  snd (handle float_repr self cache e w) = inl x ->
  exists records,
    handle float_repr self cache e w = (add_log w records, inl x)
    /\ dispatch float_repr self ((cache, e) :: (cache', e') :: rest) w
       = (fst (dispatch float_repr self ((cache', e') :: rest)
                 (add_log w records)),
          x :: snd (dispatch float_repr self ((cache', e') :: rest)
                      (add_log w records)))
    /\ (reaches_lookup cache' e' = true ->
        forall n, get_current_member_count self cache' w = (w, inr n) ->
        JsonNumber (float_repr (wall_clock w (clock_reads w))) ->
        exists kind d,
          emitted e' n kind d
          /\ well_formed_line
               (record_line float_repr (wall_clock w (clock_reads w)) kind
                  (Some d))
          /\ dispatch float_repr self [(cache, e); (cache', e')] w
             = (after_log (add_log w (records ++ entry_log e'))
                  (outfile (data_writer self))
                  (c ++ record_line float_repr (wall_clock w (clock_reads w))
                          kind (Some d) ++ [LF]),
                [x])).
Proof.
  intros Hc Hx.
  destruct (handle_raises_unchanged float_repr self cache e w c x Hc Hx)
    as (records & He).
  exists records. split; [exact He|]. split.
  - cbn [dispatch]. rewrite He.
    destruct (handle float_repr self cache' e' (add_log w records)) as [w1 r1].
    destruct (dispatch float_repr self rest w1) as [w2 reported].
    reflexivity.
  - intros Hr n Hg Hts. apply lookup_count_returns in Hg.
    destruct (handle_lookup_returns float_repr self cache' e'
                (add_log w records) n Hr Hg) as (kind & d & Hem & Hh).
    exists kind, d. split; [exact Hem|]. split.
    + apply record_line_well_formed; [exact Hts|]. apply Hem.
    + cbn [dispatch]. rewrite He, Hh, add_log_app.
      rewrite (log_run float_repr (data_writer self) kind (Some d)
                 (add_log w (records ++ entry_log e')) c Hc).
      reflexivity.
Qed.

Lemma dispatch_records (float_repr : float -> list ascii)
    (self : StatCollectorClient) (stream : list (Cache * event)) :
  forall (w : world) (c : list ascii),
    file_content w (outfile (data_writer self)) = Some c ->
    exists records : list record,
      file_content (fst (dispatch float_repr self stream w))
        (outfile (data_writer self))
      = Some (c ++ records_text float_repr records)
      /\ Forall (fun r => record_kind r ∈ spec_kinds) records
      /\ map record_ts records
         = map (wall_clock w) (seq (clock_reads w) (length records)).
Proof.
  induction stream as [|[cache e] rest IH]; intros w c Hc.
  - exists []. simpl. rewrite app_nil_r. auto.
  - cbn [dispatch].
    destruct (handle_outcome float_repr self cache e w c Hc)
      as [[_ H]|[(y & logs & H)|(kind & d & n & _ & _ & He & H)]]; rewrite H.
    + destruct (IH (add_log w (entry_log e)) c Hc) as (records & H1 & H2 & H3).
      destruct (dispatch float_repr self rest (add_log w (entry_log e)))
        as [w2 reported].
      exists records. auto.
    + destruct (IH (add_log w logs) c Hc) as (records & H1 & H2 & H3).
      destruct (dispatch float_repr self rest (add_log w logs))
        as [w2 reported].
      exists records. auto.
    + set (ts := wall_clock w (clock_reads w)) in *.
      set (w1 := after_log (add_log w (entry_log e))
                   (outfile (data_writer self))
                   (c ++ record_line float_repr ts kind (Some d) ++ [LF])).
      destruct (IH w1 _ (file_content_after_log (add_log w (entry_log e)) _ _))
        as (records & H1 & H2 & H3).
      destruct (dispatch float_repr self rest w1) as [w2 reported].
      exists ((ts, kind, d) :: records). split; [|split].
      * cbn [fst] in H1 |- *. rewrite H1. unfold records_text.
        cbn [map concat]. unfold record_ts, record_kind. cbn [fst snd].
        rewrite <- !app_assoc. reflexivity.
      * constructor; [|exact H2].
        destruct He as (Hk & _). unfold record_kind, spec_kinds. simpl.
        destruct e; simpl in Hk; try discriminate Hk;
          injection Hk as <-; apply list_elem_of_In; simpl; tauto.
      * cbn [map length seq]. rewrite H3. reflexivity.
Qed.

(** C9, as amended: the records a stream of events leaves in the journal
    have kinds among [message], [reaction_add], [member_join],
    [member_remove] and [invite_create], and their timestamps are the
    successive readings of the wall clock, whatever the clock does; they
    never decrease along the journal when the clock itself never goes
    back. *)
Theorem dispatch_kinds_and_timestamps (float_repr : float -> list ascii)
    (self : StatCollectorClient) (stream : list (Cache * event)) (w : world)
    (c : list ascii) :
  file_content w (outfile (data_writer self)) = Some c ->
  exists records : list record,
    file_content (fst (dispatch float_repr self stream w))
      (outfile (data_writer self))
    = Some (c ++ records_text float_repr records)
    /\ Forall (fun r => record_kind r ∈ spec_kinds) records
    /\ map record_ts records
       = map (wall_clock w) (seq (clock_reads w) (length records))
    /\ ((forall i j, i <= j -> ts_le (wall_clock w i) (wall_clock w j)) ->
        forall i j ti tj,
          i <= j ->
          map record_ts records !! i = Some ti ->
          map record_ts records !! j = Some tj ->
          ts_le ti tj).
Proof.
  intros Hc.
  destruct (dispatch_records float_repr self stream w c Hc)
    as (records & H1 & H2 & H3).
  exists records. repeat split; try assumption.
  intros Hmono i j ti tj Hij Hi Hj. rewrite H3 in Hi, Hj.
  rewrite list_lookup_fmap in Hi, Hj.
  destruct (seq (clock_reads w) (length records) !! i) as [a|] eqn:Ea;
    [|discriminate].
  destruct (seq (clock_reads w) (length records) !! j) as [b|] eqn:Eb;
    [|discriminate].
  apply lookup_seq in Ea as [-> _]. apply lookup_seq in Eb as [-> _].
  simpl in Hi, Hj. inversion Hi; inversion Hj; subst.
  apply Hmono. lia.
Qed.

(** ** The statements at concrete inputs *)

Lemma whole_number_JsonNumber (d : ascii) (ds : list ascii) :
  is_digit19 d = true -> all_digits ds -> JsonNumber (d :: ds ++ chars ".0").
Proof.
  intros Hd Hds. exists [], (d :: ds), (chars ".0"), [].
  rewrite app_nil_r. repeat split; auto.
  - right. exists d, ds. auto.
  - right. exists ["0"]. repeat split; [discriminate | repeat constructor].
  - left. reflexivity.
Qed.

Lemma ex_clock_renders (n : nat) : JsonNumber (float_repr_whole (ex_clock n)).
Proof.
  destruct n as [|[|n]].
  - change (JsonNumber ("1" :: chars "000" ++ chars ".0")).
    apply whole_number_JsonNumber; [reflexivity | repeat constructor].
  - change (JsonNumber ("1" :: chars "001" ++ chars ".0")).
    apply whole_number_JsonNumber; [reflexivity | repeat constructor].
  - change (JsonNumber ("1" :: chars "002" ++ chars ".0")).
    apply whole_number_JsonNumber; [reflexivity | repeat constructor].
Qed.

Lemma ex_clock_monotone (i j : nat) : i <= j -> ts_le (ex_clock i) (ex_clock j).
Proof.
  intros Hij. destruct i as [|[|i]], j as [|[|j]]; try lia; reflexivity.
Qed.

(** The journal of [ex_world_journal]: two complete, well-formed lines. *)
Lemma ex_world_journal_lines :
  journal ex_world_journal ex_path
  = Some (lines_from float_repr_whole ex_clock 0 ex_calls)
  /\ Forall well_formed_line (lines_from float_repr_whole ex_clock 0 ex_calls)
  /\ length (lines_from float_repr_whole ex_clock 0 ex_calls) = 2.
Proof.
  split; [vm_compute; reflexivity|]. split; [|reflexivity].
  apply (lines_from_well_formed float_repr_whole ex_clock ex_calls);
    [apply ex_clock_renders | repeat constructor].
Qed.

Lemma failed_event_is_isolated_witness :
  snd (handle float_repr_whole ex_client ex_cache_nocount
         (EvMemberJoin ex_alice) ex_world) = inl RuntimeError
  /\ exists records,
       handle float_repr_whole ex_client ex_cache_nocount
         (EvMemberJoin ex_alice) ex_world
       = (add_log ex_world records, inl RuntimeError)
       /\ dispatch float_repr_whole ex_client
            [(ex_cache_nocount, EvMemberJoin ex_alice);
             (ex_cache, EvRawReactionAdd ex_reaction)] ex_world
          = (fst (dispatch float_repr_whole ex_client
                    [(ex_cache, EvRawReactionAdd ex_reaction)]
                    (add_log ex_world records)),
             RuntimeError
               :: snd (dispatch float_repr_whole ex_client
                         [(ex_cache, EvRawReactionAdd ex_reaction)]
                         (add_log ex_world records))).
Proof.
  split; [reflexivity|].
  destruct (failed_event_is_isolated float_repr_whole ex_client
              ex_cache_nocount ex_cache (EvMemberJoin ex_alice)
              (EvRawReactionAdd ex_reaction) [] ex_world [] RuntimeError
              eq_refl eq_refl) as (records & H1 & H2 & _).
  exists records. split; assumption.
Defined.

Lemma emitted_data_has_spec_fields_witness :
  exists kind d,
    spec_kind (EvMessage ex_message) = Some kind
    /\ spec_fields kind = Some (dict_keys d)
    /\ handle float_repr_whole ex_client ex_cache (EvMessage ex_message) ex_world
       = (after_log (add_log ex_world (entry_log (EvMessage ex_message)))
            ex_path
            ([] ++ dumps float_repr_whole
                     (JDict [(str "timestamp", JFloat 1000%float);
                             (str "event", JStr (Events_value kind));
                             (str "data", JDict d)])
               ++ [LF]),
          inr tt).
Proof.
  apply (emitted_data_has_spec_fields float_repr_whole ex_client ex_cache
           (EvMessage ex_message) ex_world []);
    [reflexivity | vm_compute; discriminate].
Defined.

Lemma log_sequence_appends_in_order_witness :
  file_content ex_world ex_path = Some []
  /\ exists w',
       log_all float_repr_whole ex_writer ex_calls ex_world = (w', inr tt)
       /\ journal w' ex_path
          = Some (lines_from float_repr_whole ex_clock 0 ex_calls).
Proof.
  split; [reflexivity|].
  apply (log_sequence_appends_in_order float_repr_whole ex_writer ex_calls
           ex_world);
    [reflexivity | apply ex_clock_renders | repeat constructor].
Defined.

Lemma log_appends_one_stamped_line_witness :
  log float_repr_whole ex_writer MEMBER_JOIN None ex_world
  = (after_log ex_world ex_path
       ([] ++ spec_line float_repr_whole 1000%float MEMBER_JOIN None),
     inr tt).
Proof.
  apply (log_appends_one_stamped_line float_repr_whole ex_writer MEMBER_JOIN
           None ex_world []);
    [reflexivity | apply (ex_clock_renders 0) | exact I].
Defined.

(** A journal of two lines gets a third; the two stay. *)
Lemma init_then_log_keeps_lines_witness :
  journal ex_world_journal ex_path
  = Some (lines_from float_repr_whole ex_clock 0 ex_calls)
  /\ exists w' l,
       (self <- JsonlDataWriter_init ex_path ;;
        log float_repr_whole self MEMBER_REMOVE None) ex_world_journal
       = (w', inr tt)
       /\ journal w' ex_path
          = Some (lines_from float_repr_whole ex_clock 0 ex_calls ++ [l])
       /\ length (lines_from float_repr_whole ex_clock 0 ex_calls ++ [l]) = 3
       /\ take 2 (lines_from float_repr_whole ex_clock 0 ex_calls ++ [l])
          = lines_from float_repr_whole ex_clock 0 ex_calls
       /\ well_formed_line l.
Proof.
  split; [apply ex_world_journal_lines|].
  destruct (init_then_log_keeps_lines float_repr_whole ex_path MEMBER_REMOVE
              None ex_world_journal
              (concat (map (fun l => l ++ [LF])
                         (lines_from float_repr_whole ex_clock 0 ex_calls))))
    as (w' & l & H1 & _ & H3 & H4 & H5 & H6);
    [vm_compute; reflexivity | vm_compute; reflexivity
     | apply (ex_clock_renders 2) | exact I |].
  exists w', l.
  assert (E : journal_lines
                (concat (map (fun l => l ++ [LF])
                           (lines_from float_repr_whole ex_clock 0 ex_calls)))
              = lines_from float_repr_whole ex_clock 0 ex_calls)
    by (vm_compute; reflexivity).
  rewrite E in H3, H4, H5.
  split; [exact H1|]. split; [exact H3|]. split; [exact H4|].
  split; [exact H5 | exact H6].
Defined.

Lemma on_message_excluded_or_recorded_witness :
  user_id (author ex_message) <> SAPPHIRE_ID
  /\ exists w',
       on_message float_repr_whole ex_client ex_cache ex_message ex_world
       = (w', inr tt)
       /\ journal w' ex_path
          = Some [record_line float_repr_whole 1000%float MESSAGE
                    (Some [(str "author_id", JInt 42);
                           (str "author_name", JStr (str "alice"));
                           (str "channel_id", JInt 7);
                           (str "channel_name", JStr (str "general"));
                           (str "current_member_count", JInt 100)])].
Proof.
  assert (Hne : user_id (author ex_message) <> SAPPHIRE_ID) by discriminate.
  split; [exact Hne|].
  destruct (on_message_excluded_or_recorded float_repr_whole ex_client ex_cache
              ex_message ex_world) as (_ & H & _).
  eexists. split.
  - exact (H Hne [] (str "general") 100%Z eq_refl eq_refl eq_refl).
  - vm_compute. reflexivity.
Defined.

Lemma lookup_failure_drops_event_witness :
  count_unavailable ex_client ex_cache_nocount
  /\ handle float_repr_whole ex_client ex_cache_nocount (EvMemberJoin ex_alice)
       ex_world
     = (add_log ex_world (entry_log (EvMemberJoin ex_alice) ++ [count_error]),
        inl RuntimeError).
Proof.
  assert (Hu : count_unavailable ex_client ex_cache_nocount).
  { exists {| member_count := None |}. split; reflexivity. }
  split; [exact Hu|].
  apply (lookup_failure_drops_event float_repr_whole ex_client ex_cache_nocount
           (EvMemberJoin ex_alice) ex_world Hu).
  reflexivity.
Defined.

Lemma dispatch_kinds_and_timestamps_witness :
  exists records : list record,
    file_content
      (fst (dispatch float_repr_whole ex_client
              [(ex_cache, EvMemberJoin ex_alice);
               (ex_cache_nocount, EvMemberJoin ex_alice);
               (ex_cache, EvRawReactionAdd ex_reaction)] ex_world)) ex_path
    = Some ([] ++ records_text float_repr_whole records)
    /\ Forall (fun r => record_kind r ∈ spec_kinds) records
    /\ map record_ts records = map ex_clock (seq 0 (length records))
    /\ (forall i j ti tj,
          i <= j ->
          map record_ts records !! i = Some ti ->
          map record_ts records !! j = Some tj ->
          ts_le ti tj).
Proof.
  destruct (dispatch_kinds_and_timestamps float_repr_whole ex_client
              [(ex_cache, EvMemberJoin ex_alice);
               (ex_cache_nocount, EvMemberJoin ex_alice);
               (ex_cache, EvRawReactionAdd ex_reaction)] ex_world [] eq_refl)
    as (records & H1 & H2 & H3 & H4).
  exists records. repeat split; try assumption.
  apply H4. apply ex_clock_monotone.
Defined.

Lemma recorded_member_count_nonzero_witness :
  file_content ex_world ex_path = Some []
  /\ (file_content
        (fst (handle float_repr_whole ex_client ex_cache
                (EvMemberJoin ex_alice) ex_world)) ex_path = Some []
      \/ exists kind d z g,
           handle float_repr_whole ex_client ex_cache (EvMemberJoin ex_alice)
             ex_world
           = (after_log (add_log ex_world (entry_log (EvMemberJoin ex_alice)))
                ex_path
                ([] ++ record_line float_repr_whole 1000%float kind (Some d)
                   ++ [LF]),
              inr tt)
           /\ dict_get d (str "current_member_count") = Some (JInt z)
           /\ get_guild ex_cache (guild_id ex_client) = Some g
           /\ member_count g = Some z
           /\ z <> 0%Z
           /\ ((0 <= z)%Z -> (0 < z)%Z)).
Proof.
  split; [reflexivity|].
  apply (proj2 (recorded_member_count_nonzero float_repr_whole ex_client
                  ex_cache (EvMemberJoin ex_alice) ex_world) [] eq_refl).
Defined.

(** C7, as stated, fails: a message of another author, delivered while the
    member count of the guild is not known, raises and leaves the journal
    empty; so does a direct message, whose channel has no name, even with
    the count known. *)
Lemma message_without_count_not_recorded :
  user_id (author ex_message) <> SAPPHIRE_ID
  /\ file_content ex_world ex_path = Some []
  /\ snd (on_message float_repr_whole ex_client ex_cache_nocount ex_message
            ex_world) = inl RuntimeError
  /\ file_content
       (fst (on_message float_repr_whole ex_client ex_cache_nocount ex_message
               ex_world)) ex_path = Some []
  /\ snd (on_message float_repr_whole ex_client ex_cache ex_direct_message
            ex_world) = inl AttributeError
  /\ file_content
       (fst (on_message float_repr_whole ex_client ex_cache ex_direct_message
               ex_world)) ex_path = Some [].
Proof. split; [discriminate|]. repeat split; reflexivity. Qed.

(** C9, as stated, fails: with a wall clock that is set back between two
    events, the journal holds a record stamped 5.0 followed by one stamped
    3.0. *)
Lemma clock_set_back_timestamps_decrease :
  file_content
    (fst (dispatch float_repr_whole ex_client
            [(ex_cache, EvMemberJoin ex_alice); (ex_cache, EvMemberJoin ex_alice)]
            ex_world_back)) ex_path
  = Some (records_text float_repr_whole
            [(5%float, MEMBER_JOIN,
              [(str "member_id", JInt 42);
               (str "current_member_count", JInt 100)]);
             (3%float, MEMBER_JOIN,
              [(str "member_id", JInt 42);
               (str "current_member_count", JInt 100)])])
  /\ ~ ts_le 5%float 3%float.
Proof. split; [vm_compute; reflexivity | discriminate]. Qed.

(** C10, as stated, fails: the guard tests the count for zero only, so a
    negative count in the cache is returned and written to the journal. *)
Lemma negative_member_count_recorded :
  get_guild ex_cache_negative (guild_id ex_client)
  = Some {| member_count := Some (-1)%Z |}
  /\ snd (handle float_repr_whole ex_client ex_cache_negative
            (EvMemberJoin ex_alice) ex_world) = inr tt
  /\ file_content
       (fst (handle float_repr_whole ex_client ex_cache_negative
               (EvMemberJoin ex_alice) ex_world)) ex_path
     = Some (record_line float_repr_whole 1000%float MEMBER_JOIN
               (Some [(str "member_id", JInt 42);
                      (str "current_member_count", JInt (-1))])
               ++ [LF])
  /\ ~ (0 < -1)%Z.
Proof. repeat split; try reflexivity. lia. Qed.

(** The constructor on a directory, on a missing path and on the journal. *)
Example init_on_directory :
  JsonlDataWriter_init ex_path ex_world_dir
  = (add_log ex_world_dir [directory_error ex_path], inl ValueError).
Proof. reflexivity. Qed.

Example init_on_missing_path :
  file_content (fst (JsonlDataWriter_init ex_path ex_world_empty)) ex_path
  = Some []
  /\ snd (JsonlDataWriter_init ex_path ex_world_empty) = inr ex_writer.
Proof. split; reflexivity. Qed.

Example init_on_journal :
  JsonlDataWriter_init ex_path ex_world = (ex_world, inr ex_writer).
Proof. reflexivity. Qed.

(** The message scenario of the specification: author 42 [alice], channel 7
    [general], 100 members. *)
Example message_scenario_line :
  journal (fst (on_message float_repr_whole ex_client ex_cache ex_message
                  ex_world)) ex_path
  = Some ["{" :: quoted "timestamp" ++ chars ": 1000.0, "
            ++ quoted "event" ++ chars ": " ++ quoted "message" ++ chars ", "
            ++ quoted "data" ++ chars ": {"
            ++ quoted "author_id" ++ chars ": 42, "
            ++ quoted "author_name" ++ chars ": " ++ quoted "alice" ++ chars ", "
            ++ quoted "channel_id" ++ chars ": 7, "
            ++ quoted "channel_name" ++ chars ": " ++ quoted "general"
            ++ chars ", " ++ quoted "current_member_count" ++ chars ": 100}}"].
Proof. vm_compute. reflexivity. Qed.

(** What the handlers log: a debug record on entry, and the error of a
    failed lookup, which alone reaches [app.log]. *)
Example failed_join_log :
  logged (fst (handle float_repr_whole ex_client ex_cache_nocount
                 (EvMemberJoin ex_alice) ex_world))
  = [(DEBUG, str "new member joined: 42");
     (ERROR, str "member count is not available!")]
  /\ app_log (logged (fst (handle float_repr_whole ex_client ex_cache_nocount
                             (EvMemberJoin ex_alice) ex_world)))
     = [(ERROR, str "member count is not available!")].
Proof. split; reflexivity. Qed.

(** The escapes of [json.dump]: a non-ASCII letter, a line break, a character
    outside the basic plane, a double quote and DEL. *)
Example encode_escapes :
  encode_basestring_ascii [233; 10; 128512; 34; 127; 65]%N
  = dquote :: chars "\u00e9\n\ud83d\ude00\" ++ dquote :: chars "\u007fA"
      ++ [dquote].
Proof. reflexivity. Qed.
(** * Further properties of the writer *)

(** X1: [log] does not need the constructor to have run: on a path where
    nothing exists, opening for append creates the file, which then holds
    exactly the one record and its newline. *)
Theorem log_creates_missing_journal (float_repr : float -> list ascii)
    (self : JsonlDataWriter) (kind : Events) (data : option pydict)
    (w : world) :
  files w !! outfile self = None ->
  log float_repr self kind data w
  = (after_log w (outfile self)
       (record_line float_repr (wall_clock w (clock_reads w)) kind data
          ++ [LF]),
     inr tt).
Proof.
  intros Hn.
  unfold log, bind, now_timestamp, open_append, write, after_log, with_files.
  simpl. rewrite Hn. simpl. rewrite lookup_insert_eq. simpl.
  rewrite lookup_insert_eq. simpl.
  rewrite !insert_insert_eq. reflexivity.
Qed.

Lemma log_creates_missing_journal_witness :
  file_content
    (fst (log float_repr_whole ex_writer MEMBER_JOIN None ex_world_empty))
    ex_path
  = Some (record_line float_repr_whole 1000%float MEMBER_JOIN None ++ [LF]).
Proof.
  rewrite (log_creates_missing_journal float_repr_whole ex_writer MEMBER_JOIN
             None ex_world_empty); reflexivity.
Defined.

(** X2: when the journal path has become a directory, [log] raises
    [IsADirectoryError] out of [open]; the file system is left as it was, but
    the clock has been read, since the timestamp is taken before the file is
    opened. *)
Theorem log_on_directory_raises (float_repr : float -> list ascii)
    (self : JsonlDataWriter) (kind : Events) (data : option pydict)
    (w : world) :
  files w !! outfile self = Some Dir ->
  log float_repr self kind data w
  = ({| files := files w; wall_clock := wall_clock w;
        clock_reads := S (clock_reads w); logged := logged w |},
     inl IsADirectoryError).
Proof.
  intros Hd. unfold log, bind, now_timestamp, open_append. simpl.
  rewrite Hd. reflexivity.
Qed.

Lemma log_on_directory_raises_witness :
  snd (log float_repr_whole ex_writer MESSAGE None ex_world_dir)
  = inl IsADirectoryError
  /\ files (fst (log float_repr_whole ex_writer MESSAGE None ex_world_dir))
     = files ex_world_dir
  /\ clock_reads (fst (log float_repr_whole ex_writer MESSAGE None ex_world_dir))
     = 1.
Proof.
  rewrite (log_on_directory_raises float_repr_whole ex_writer MESSAGE None
             ex_world_dir); [repeat split | reflexivity].
Defined.

(** X3: an empty dict is as good as no payload: [log(kind, {})] appends the
    same line as [log(kind)], the one without a [data] member, and not a
    line with an empty [data] object. *)
Theorem log_empty_payload_omits_data (float_repr : float -> list ascii)
    (self : JsonlDataWriter) (kind : Events) (w : world) (c : list ascii) :
  file_content w (outfile self) = Some c ->
  log float_repr self kind (Some []) w = log float_repr self kind None w
  /\ log float_repr self kind (Some []) w
     = (after_log w (outfile self)
          (c ++ spec_line float_repr (wall_clock w (clock_reads w)) kind None),
        inr tt).
Proof.
  intros Hc. split; [reflexivity|].
  rewrite (log_run _ _ _ _ _ _ Hc), record_line_spec_line. reflexivity.
Qed.

Lemma log_empty_payload_omits_data_witness :
  log float_repr_whole ex_writer MEMBER_JOIN (Some []) ex_world
  = (after_log ex_world ex_path
       ([] ++ spec_line float_repr_whole 1000%float MEMBER_JOIN None),
     inr tt).
Proof.
  apply (log_empty_payload_omits_data float_repr_whole ex_writer MEMBER_JOIN
           ex_world [] eq_refl).
Defined.






(** X6: restarting accumulates: unless the path is a directory, constructing
    a writer and making any number of [log] calls returns normally and
    leaves the file holding whatever it held before, complete lines or not,
    followed by the new records, one per call and each ended by a newline. *)
Theorem init_then_logs_accumulate (float_repr : float -> list ascii)
    (p : string) (calls : list (Events * option pydict)) (w : world) :
  files w !! p <> Some Dir ->
  exists w',
    (self <- JsonlDataWriter_init p ;; log_all float_repr self calls) w
    = (w', inr tt)
    /\ file_content w' p
       = Some (content_or_empty w p
                 ++ concat (map (fun l => l ++ [LF])
                              (lines_from float_repr (wall_clock w)
                                 (clock_reads w) calls))).
Proof.
  intros Hd. unfold content_or_empty.
  destruct (file_content w p) as [c|] eqn:Hc.
  - unfold bind. rewrite (init_on_regular_file p w c Hc).
    destruct (log_all_run float_repr {| outfile := p |} calls w c Hc)
      as (w' & Hrun & Hfile & _).
    exists w'. auto.
  - assert (Hn : files w !! p = None).
    { unfold file_content in Hc.
      destruct (files w !! p) as [[|c]|]; congruence. }
    assert (Hinit : JsonlDataWriter_init p w
                    = (with_files w (<[p := File []]> (files w)),
                       inr {| outfile := p |})).
    { unfold JsonlDataWriter_init, bind, is_dir, exists_, touch, ret, raise,
        logger_log.
      simpl. rewrite Hn. simpl. rewrite Hn. simpl. rewrite Hn. reflexivity. }
    unfold bind. rewrite Hinit.
    destruct (log_all_run float_repr {| outfile := p |} calls
                (with_files w (<[p := File []]> (files w))) [])
      as (w' & Hrun & Hfile & _).
    { apply file_content_Some. simpl. apply lookup_insert_eq. }
    exists w'. split; [exact Hrun|]. exact Hfile.
Qed.

Lemma init_then_logs_accumulate_witness :
  exists w',
    (self <- JsonlDataWriter_init ex_path ;;
     log_all float_repr_whole self ex_calls) ex_world_partial = (w', inr tt)
    /\ file_content w' ex_path
       = Some (content_or_empty ex_world_partial ex_path
                 ++ concat (map (fun l => l ++ [LF])
                              (lines_from float_repr_whole ex_clock 0 ex_calls))).
Proof.
  apply (init_then_logs_accumulate float_repr_whole ex_path ex_calls
           ex_world_partial).
  vm_compute. discriminate.
Defined.

Lemma scan_lines_glued_line (l : list ascii) :
  LF ∉ l ->
  forall c : list ascii,
    scan_lines (c ++ l ++ [LF])
    = (fst (scan_lines c) ++ [snd (scan_lines c) ++ l], []).
Proof.
  intros Hl. induction c as [|a c IH].
  - simpl app. rewrite (scan_lines_line l [] Hl). reflexivity.
  - cbn [app scan_lines]. rewrite IH.
    destruct (scan_lines c) as [ls t]. cbn [fst snd].
    destruct (Ascii.eqb a LF); [reflexivity|].
    destruct ls as [|l0 ls0]; reflexivity.
Qed.

(** X7: [log] does not look at how the file ends.  After a journal whose
    last line was cut short, the record is appended to that partial line:
    the complete lines that were there stay, and the new last line is the
    partial text followed by the record. *)
Theorem log_after_partial_line (float_repr : float -> list ascii)
    (self : JsonlDataWriter) (kind : Events) (data : option pydict)
    (w : world) (c : list ascii) :
  file_content w (outfile self) = Some c ->
  JsonNumber (float_repr (wall_clock w (clock_reads w))) ->
  payload_floats_ok float_repr data ->
  exists c',
    file_content (fst (log float_repr self kind data w)) (outfile self)
    = Some c'
    /\ journal_lines c'
       = journal_lines c
           ++ [journal_tail c
                 ++ record_line float_repr (wall_clock w (clock_reads w))
                      kind data]
    /\ journal_tail c' = [].
Proof.
  intros Hc Hts Hd.
  destruct (record_line_well_formed float_repr _ kind data Hts Hd)
    as (_ & Hl & _).
  rewrite (log_run _ _ _ _ _ _ Hc). eexists.
  split; [apply file_content_after_log|].
  unfold journal_lines, journal_tail.
  rewrite (scan_lines_glued_line _ Hl c). split; reflexivity.
Qed.

Lemma log_after_partial_line_witness :
  exists c',
    file_content
      (fst (log float_repr_whole ex_writer MEMBER_JOIN None ex_world_partial))
      ex_path = Some c'
    /\ journal_lines c'
       = journal_lines (chars "{}" ++ LF :: chars "{par")
           ++ [journal_tail (chars "{}" ++ LF :: chars "{par")
                 ++ record_line float_repr_whole 1000%float MEMBER_JOIN None]
    /\ journal_tail c' = [].
Proof.
  apply (log_after_partial_line float_repr_whole ex_writer MEMBER_JOIN None
           ex_world_partial);
    [reflexivity | apply (ex_clock_renders 0) | exact I].
Defined.

(** ** The journal is printable ASCII *)

Lemma hex_digit_printable (n : N) :
  (n < 16)%N -> is_printable (hex_digit n) = true.
Proof.
  intros Hn. rewrite <- (N2Nat.id n).
  assert (Hm : N.to_nat n < 16) by lia.
  revert Hm. generalize (N.to_nat n) as m. intros m Hm.
  do 16 (destruct m as [|m]; [reflexivity|]). lia.
Qed.

Lemma u_escape_printable (n : N) : printable (u_escape n).
Proof.
  unfold u_escape, hex4, printable.
  repeat constructor; apply hex_digit_printable; apply N.mod_lt; discriminate.
Qed.

Lemma escape_char_printable (c : N) : printable (escape_char c).
Proof.
  unfold escape_char, printable.
  repeat (match goal with
          | |- context [if (?a =? ?b)%N then _ else _] =>
              destruct (N.eqb_spec a b); [repeat constructor|]
          end).
  destruct ((32 <=? c) && (c <=? 126))%N eqn:Hp.
  - constructor; [|constructor].
    apply andb_true_iff in Hp as [H1 H2].
    apply N.leb_le in H1. apply N.leb_le in H2.
    unfold is_printable. rewrite N_ascii_embedding by lia.
    apply andb_true_iff; split; apply N.leb_le; lia.
  - destruct (c <? 65536)%N.
    + apply u_escape_printable.
    + apply Forall_app; split; apply u_escape_printable.
Qed.

Lemma encode_basestring_ascii_printable (s : pystr) :
  printable (encode_basestring_ascii s).
Proof.
  unfold encode_basestring_ascii, printable.
  constructor; [reflexivity|]. apply Forall_app. split; [|repeat constructor].
  induction s as [|c s IH]; simpl; [constructor|].
  apply Forall_app; split; [apply escape_char_printable | exact IH].
Qed.

Lemma all_digits_printable (s : list ascii) : all_digits s -> printable s.
Proof.
  unfold all_digits, printable. intros H.
  eapply Forall_impl; [exact H|]. intros c Hc.
  unfold is_digit in Hc. unfold is_printable.
  apply andb_true_iff in Hc as [H1 H2].
  apply N.leb_le in H1. apply N.leb_le in H2.
  apply andb_true_iff; split; apply N.leb_le; lia.
Qed.

Lemma JsonNumber_printable (s : list ascii) : JsonNumber s -> printable s.
Proof.
  intros (sign & i & f & e & -> & Hs & Hi & Hf & He). unfold printable.
  repeat (apply Forall_app; split).
  - destruct Hs as [->| ->]; repeat constructor.
  - destruct Hi as [->|(d & ds & -> & Hd & Hds)]; [repeat constructor|].
    constructor; [|apply all_digits_printable; exact Hds].
    unfold is_digit19 in Hd. unfold is_printable.
    apply andb_true_iff in Hd as [H1 H2].
    apply N.leb_le in H1. apply N.leb_le in H2.
    apply andb_true_iff; split; apply N.leb_le; lia.
  - destruct Hf as [->|(ds & -> & _ & Hds)]; [constructor|].
    constructor; [reflexivity | apply all_digits_printable; exact Hds].
  - destruct He as [->|(c & sg & ds & -> & Hc & Hsg & _ & Hds)]; [constructor|].
    constructor; [destruct Hc as [->| ->]; reflexivity|].
    apply Forall_app; split; [|apply all_digits_printable; exact Hds].
    destruct Hsg as [->|[->| ->]]; repeat constructor.
Qed.

Lemma join_items_printable (items : list (list ascii)) :
  Forall printable items -> printable (join_items items).
Proof.
  unfold printable.
  induction 1 as [|x rest Hx Hrest IH]; simpl; [constructor|].
  destruct rest as [|y rest']; [assumption|].
  apply Forall_app; split; [assumption|].
  constructor; [reflexivity|]. constructor; [reflexivity|]. exact IH.
Qed.

Lemma dumps_printable (float_repr : float -> list ascii) (v : json) :
  floats_ok float_repr v -> printable (dumps float_repr v).
Proof.
  induction v as [|b|z|f|s|l IH|d IH] using json_nested_ind;
    cbn [dumps floats_ok]; intros Hok.
  - repeat constructor.
  - destruct b; repeat constructor.
  - apply JsonNumber_printable, int_repr_JsonNumber.
  - apply JsonNumber_printable. exact Hok.
  - apply encode_basestring_ascii_printable.
  - constructor; [reflexivity|].
    apply Forall_app; split; [|repeat constructor].
    apply join_items_printable.
    induction IH as [|x l' Hx _ IHl]; cbn [map fold_right] in *; constructor.
    + apply Hx. apply Hok.
    + apply IHl. apply Hok.
  - constructor; [reflexivity|].
    apply Forall_app; split; [|repeat constructor].
    apply join_items_printable.
    induction IH as [|kv d' Hkv _ IHd]; cbn [map fold_right] in *; constructor.
    + apply Forall_app; split; [apply encode_basestring_ascii_printable|].
      constructor; [reflexivity|]. constructor; [reflexivity|].
      apply Hkv. apply Hok.
    + apply IHd. apply Hok.
Qed.

(** X8: whatever the names and strings of the payload contain (control
    characters, quotes, any Unicode), [log] writes printable ASCII only, the
    closing newline apart: everything else is escaped. *)
Theorem log_writes_printable_ascii (float_repr : float -> list ascii)
    (self : JsonlDataWriter) (kind : Events) (data : option pydict)
    (w : world) (c : list ascii) :
  file_content w (outfile self) = Some c ->
  JsonNumber (float_repr (wall_clock w (clock_reads w))) ->
  payload_floats_ok float_repr data ->
  exists l,
    log float_repr self kind data w
    = (after_log w (outfile self) (c ++ l ++ [LF]), inr tt)
    /\ Forall (fun ch => is_printable ch = true) l.
Proof.
  intros Hc Hts Hd.
  exists (record_line float_repr (wall_clock w (clock_reads w)) kind data).
  split; [apply log_run; exact Hc|].
  apply dumps_printable, logged_data_floats_ok; assumption.
Qed.

Lemma log_writes_printable_ascii_witness :
  exists l,
    log float_repr_whole ex_writer MESSAGE
      (Some [(str "name", JStr [233; 10; 128512; 34]%N)]) ex_world
    = (after_log ex_world ex_path ([] ++ l ++ [LF]), inr tt)
    /\ Forall (fun ch => is_printable ch = true) l.
Proof.
  apply (log_writes_printable_ascii float_repr_whole ex_writer MESSAGE
           (Some [(str "name", JStr [233; 10; 128512; 34]%N)]) ex_world []);
    [reflexivity | apply (ex_clock_renders 0) | repeat constructor].
Defined.

(** X9: the six members of [Events] have six different values, so the
    [event] member of a journal line identifies the kind. *)
Theorem Events_value_injective (a b : Events) :
  Events_value a = Events_value b -> a = b.
Proof.
  destruct a, b; intros H; try reflexivity; vm_compute in H; discriminate H.
Qed.

Lemma Events_value_injective_witness : REACTION_ADD = REACTION_ADD.
Proof. apply (Events_value_injective REACTION_ADD REACTION_ADD). reflexivity. Defined.

(** * Further properties of the handlers *)

Lemma count_reported_lookup (self : StatCollectorClient) (cache : Cache)
    (g : Guild) (n : Z) :
  get_guild cache (guild_id self) = Some g ->
  member_count g = Some n -> n <> 0%Z ->
  lookup_count self cache = inr n.
Proof.
  intros Hg Hm Hn. unfold lookup_count. rewrite Hg, Hm.
  destruct (Z.eqb_spec n 0); [contradiction | reflexivity].
Qed.





(** X11: when the monitored guild is not in the client's cache, the lookup
    fails on the attribute access before its own check: it raises
    [AttributeError], not the [RuntimeError] of a missing count, and logs
    nothing; every handler that reaches it fails with that error, having
    logged its first record only and written nothing. *)
Theorem missing_guild_raises_attribute_error (float_repr : float -> list ascii)
    (self : StatCollectorClient) (cache : Cache) (e : event) (w : world) :
  get_guild cache (guild_id self) = None ->
  get_current_member_count self cache w = (w, inl AttributeError)
  /\ (reaches_lookup cache e = true ->
      handle float_repr self cache e w
      = (add_log w (entry_log e), inl AttributeError)).
Proof.
  intros Hg.
  assert (Hc : lookup_count self cache = inl AttributeError)
    by (unfold lookup_count; rewrite Hg; reflexivity).
  split.
  - rewrite get_current_member_count_run, Hc. apply f_equal2; [|reflexivity].
    apply add_log_nil.
  - intros Hr.
    rewrite (handle_lookup_fails float_repr self cache e w AttributeError Hr Hc).
    cbn [lookup_log]. rewrite app_nil_r. reflexivity.
Qed.

Lemma missing_guild_raises_attribute_error_witness :
  handle float_repr_whole ex_client ex_cache_noguild (EvMemberJoin ex_alice)
    ex_world
  = (add_log ex_world (entry_log (EvMemberJoin ex_alice)), inl AttributeError).
Proof.
  apply (missing_guild_raises_attribute_error float_repr_whole ex_client
           ex_cache_noguild (EvMemberJoin ex_alice) ex_world); reflexivity.
Defined.

(** X12: a reaction whose channel is not in the cache or has no name, or
    which carries no member, raises [AttributeError] and writes nothing;
    this comes before the member-count lookup, so it is the error raised
    even when the count is unavailable too. *)
Theorem reaction_unresolved_raises (float_repr : float -> list ascii)
    (self : StatCollectorClient) (cache : Cache)
    (payload : RawReactionActionEvent) (w : world) :
  get_channel cache (reaction_channel_id payload) = None
  \/ member payload = None
  \/ (exists ch, get_channel cache (reaction_channel_id payload) = Some ch
                 /\ channel_name ch = None) ->
  on_raw_reaction_add float_repr self cache payload w
  = (add_log w (entry_log (EvRawReactionAdd payload)), inl AttributeError).
Proof.
  intros H.
  unfold on_raw_reaction_add, bind, getattr, attribute, ret, raise,
    logger_log, entry_log.
  destruct (get_channel cache (reaction_channel_id payload)) as [ch|];
    [|reflexivity].
  destruct (channel_name ch) as [name|] eqn:Hname; [|reflexivity].
  destruct H as [H|[H|(ch' & H & Hn)]]; [discriminate| |].
  - rewrite H. reflexivity.
  - injection H as <-. congruence.
Qed.

Lemma reaction_unresolved_raises_witness :
  on_raw_reaction_add float_repr_whole ex_client ex_cache_nocount
    ex_reaction_elsewhere ex_world
  = (add_log ex_world (entry_log (EvRawReactionAdd ex_reaction_elsewhere)),
     inl AttributeError).
Proof.
  apply (reaction_unresolved_raises float_repr_whole ex_client
           ex_cache_nocount ex_reaction_elsewhere ex_world).
  left. reflexivity.
Defined.

(** X13: an invite without inviter raises [AttributeError] and writes
    nothing, whatever the member count. *)
Theorem invite_without_inviter_raises (float_repr : float -> list ascii)
    (self : StatCollectorClient) (cache : Cache) (invite : Invite)
    (w : world) :
  inviter invite = None ->
  on_invite_create float_repr self cache invite w
  = (add_log w (entry_log (EvInviteCreate invite)), inl AttributeError).
Proof.
  intros H. unfold on_invite_create, bind, getattr, ret, raise, logger_log.
  rewrite H. reflexivity.
Qed.

Lemma invite_without_inviter_raises_witness :
  on_invite_create float_repr_whole ex_client ex_cache ex_invite_anonymous
    ex_world
  = (add_log ex_world (entry_log (EvInviteCreate ex_invite_anonymous)),
     inl AttributeError).
Proof.
  apply (invite_without_inviter_raises float_repr_whole ex_client ex_cache
           ex_invite_anonymous ex_world).
  reflexivity.
Defined.

(** X14: the record of a reaction takes the channel id and name from the
    channel object found in the cache (not from the id in the payload), the
    member from the payload and the count from the guild; an emoji without
    name is written as [null]. *)
Theorem reaction_record (float_repr : float -> list ascii)
    (self : StatCollectorClient) (cache : Cache)
    (payload : RawReactionActionEvent) (w : world) (c : list ascii)
    (ch : Channel) (cname : pystr) (u : User) (g : Guild) (n : Z) :
  file_content w (outfile (data_writer self)) = Some c ->
  get_channel cache (reaction_channel_id payload) = Some ch ->
  channel_name ch = Some cname ->
  member payload = Some u ->
  get_guild cache (guild_id self) = Some g ->
  member_count g = Some n -> n <> 0%Z ->
  on_raw_reaction_add float_repr self cache payload w
  = (after_log (add_log w (entry_log (EvRawReactionAdd payload)))
       (outfile (data_writer self))
       (c ++ record_line float_repr (wall_clock w (clock_reads w)) REACTION_ADD
               (Some [(str "channel_id", JInt (channel_id ch));
                      (str "channel_name", JStr cname);
                      (str "emoji",
                       match emoji_name (emoji payload) with
                       | Some name => JStr name
                       | None => JNull
                       end);
                      (str "member_name", JStr (user_name u));
                      (str "member_id", JInt (user_id u));
                      (str "current_member_count", JInt n)])
          ++ [LF]),
     inr tt).
Proof.
  intros Hc Hch Hname Hu Hg Hm Hn.
  unfold on_raw_reaction_add, bind, getattr, attribute, ret, raise,
    logger_log, entry_log.
  rewrite Hch, Hname, Hu, get_current_member_count_run,
    (count_reported_lookup self cache g n Hg Hm Hn).
  cbn [lookup_log]. rewrite add_log_nil.
  apply (log_run float_repr (data_writer self) REACTION_ADD _
           (add_log w _) c Hc).
Qed.

Lemma reaction_record_witness :
  exists w',
    on_raw_reaction_add float_repr_whole ex_client ex_cache ex_reaction_unnamed
      ex_world = (w', inr tt)
    /\ file_content w' ex_path
       = Some (record_line float_repr_whole 1000%float REACTION_ADD
                 (Some [(str "channel_id", JInt 7);
                        (str "channel_name", JStr (str "general"));
                        (str "emoji", JNull);
                        (str "member_name", JStr (str "alice"));
                        (str "member_id", JInt 42);
                        (str "current_member_count", JInt 100)])
                 ++ [LF]).
Proof.
  eexists. split.
  - apply (reaction_record float_repr_whole ex_client ex_cache
             ex_reaction_unnamed ex_world [] ex_channel (str "general") ex_alice
             {| member_count := Some 100%Z |} 100%Z);
      try reflexivity; discriminate.
  - reflexivity.
Defined.

(** X15: a join and a removal leave records of the same shape, the id of
    the member and the count the guild reports at that moment, under the
    kinds [member_join] and [member_remove]. *)
Theorem member_join_and_remove_records (float_repr : float -> list ascii)
    (self : StatCollectorClient) (cache : Cache) (joined : User)
    (removed : RawMemberRemoveEvent) (w : world) (c : list ascii)
    (g : Guild) (n : Z) :
  file_content w (outfile (data_writer self)) = Some c ->
  get_guild cache (guild_id self) = Some g ->
  member_count g = Some n -> n <> 0%Z ->
  on_member_join float_repr self cache joined w
  = (after_log (add_log w (entry_log (EvMemberJoin joined)))
       (outfile (data_writer self))
       (c ++ record_line float_repr (wall_clock w (clock_reads w)) MEMBER_JOIN
               (Some [(str "member_id", JInt (user_id joined));
                      (str "current_member_count", JInt n)])
          ++ [LF]),
     inr tt)
  /\ on_raw_member_remove float_repr self cache removed w
     = (after_log (add_log w (entry_log (EvRawMemberRemove removed)))
          (outfile (data_writer self))
          (c ++ record_line float_repr (wall_clock w (clock_reads w))
                  MEMBER_REMOVE
                  (Some [(str "member_id", JInt (user_id (user removed)));
                         (str "current_member_count", JInt n)])
             ++ [LF]),
        inr tt).
Proof.
  intros Hc Hg Hm Hn.
  unfold on_member_join, on_raw_member_remove, bind, logger_log, entry_log.
  rewrite !get_current_member_count_run,
    (count_reported_lookup self cache g n Hg Hm Hn).
  cbn [lookup_log]. rewrite !add_log_nil.
  split.
  - apply (log_run float_repr (data_writer self) MEMBER_JOIN _
             (add_log w _) c Hc).
  - apply (log_run float_repr (data_writer self) MEMBER_REMOVE _
             (add_log w _) c Hc).
Qed.

Lemma member_join_and_remove_records_witness :
  snd (on_member_join float_repr_whole ex_client ex_cache ex_alice ex_world)
  = inr tt
  /\ snd (on_raw_member_remove float_repr_whole ex_client ex_cache
            {| user := ex_alice |} ex_world)
     = inr tt.
Proof.
  destruct (member_join_and_remove_records float_repr_whole ex_client ex_cache
              ex_alice {| user := ex_alice |} ex_world []
              {| member_count := Some 100%Z |} 100%Z eq_refl eq_refl eq_refl
              ltac:(discriminate)) as [H1 H2].
  rewrite H1, H2. split; reflexivity.
Defined.

(** X16: the record of an invite holds the invite's code, the id and name
    of its inviter and the count the guild reports. *)
Theorem invite_record (float_repr : float -> list ascii)
    (self : StatCollectorClient) (cache : Cache) (invite : Invite)
    (w : world) (c : list ascii) (u : User) (g : Guild) (n : Z) :
  file_content w (outfile (data_writer self)) = Some c ->
  inviter invite = Some u ->
  get_guild cache (guild_id self) = Some g ->
  member_count g = Some n -> n <> 0%Z ->
  on_invite_create float_repr self cache invite w
  = (after_log (add_log w (entry_log (EvInviteCreate invite)))
       (outfile (data_writer self))
       (c ++ record_line float_repr (wall_clock w (clock_reads w)) INVITE_CREATE
               (Some [(str "invite_id", JStr (invite_id invite));
                      (str "inviter_id", JInt (user_id u));
                      (str "inviter_name", JStr (user_name u));
                      (str "current_member_count", JInt n)])
          ++ [LF]),
     inr tt).
Proof.
  intros Hc Hu Hg Hm Hn.
  unfold on_invite_create, bind, getattr, ret, raise, logger_log, entry_log.
  rewrite Hu, get_current_member_count_run,
    (count_reported_lookup self cache g n Hg Hm Hn).
  cbn [lookup_log]. rewrite add_log_nil.
  apply (log_run float_repr (data_writer self) INVITE_CREATE _
           (add_log w _) c Hc).
Qed.

Lemma invite_record_witness :
  snd (on_invite_create float_repr_whole ex_client ex_cache ex_invite ex_world)
  = inr tt.
Proof.
  rewrite (invite_record float_repr_whole ex_client ex_cache ex_invite ex_world
             [] ex_alice {| member_count := Some 100%Z |} 100%Z eq_refl eq_refl
             eq_refl eq_refl ltac:(discriminate)).
  reflexivity.
Defined.

(** X17: the handlers keep the journal well formed: if it consists of
    complete, well-formed lines when an event is delivered, it does so
    afterwards, with the lines that were there unchanged and at most one
    line more. *)
Theorem handle_keeps_journal_well_formed (float_repr : float -> list ascii)
    (self : StatCollectorClient) (cache : Cache) (e : event) (w : world)
    (ls : list (list ascii)) :
  journal w (outfile (data_writer self)) = Some ls ->
  Forall well_formed_line ls ->
  JsonNumber (float_repr (wall_clock w (clock_reads w))) ->
  exists new,
    journal (fst (handle float_repr self cache e w))
      (outfile (data_writer self)) = Some (ls ++ new)
    /\ Forall well_formed_line (ls ++ new)
    /\ length new <= 1.
Proof.
  intros Hj Hwf Hts. unfold journal in Hj.
  destruct (file_content w (outfile (data_writer self))) as [c|] eqn:Hc;
    [|discriminate].
  destruct (decide (journal_tail c = [])) as [Ht|]; [|discriminate].
  injection Hj as <-.
  destruct (handle_outcome float_repr self cache e w c Hc)
    as [[_ H]|[(y & logs & H)|(kind & d & n & _ & _ & He & H)]];
    rewrite H; cbn [fst].
  - exists []. rewrite app_nil_r. unfold journal.
    change (file_content (add_log w (entry_log e)) (outfile (data_writer self)))
      with (file_content w (outfile (data_writer self))).
    rewrite Hc. destruct (decide _); [auto | contradiction].
  - exists []. rewrite app_nil_r. unfold journal.
    change (file_content (add_log w logs) (outfile (data_writer self)))
      with (file_content w (outfile (data_writer self))).
    rewrite Hc. destruct (decide _); [auto | contradiction].
  - assert (Hl : well_formed_line
                   (record_line float_repr (wall_clock w (clock_reads w)) kind
                      (Some d)))
      by (apply record_line_well_formed; [exact Hts | apply He]).
    eexists [_]. split; [|split].
    + apply journal_after_append; [exact Ht | apply Hl].
    + apply Forall_app. split; [exact Hwf | constructor; [exact Hl | constructor]].
    + simpl. lia.
Qed.

(** A journal of two well-formed lines gets the record of a reaction as
    its third. *)
Lemma handle_keeps_journal_well_formed_witness :
  journal ex_world_journal ex_path
  = Some (lines_from float_repr_whole ex_clock 0 ex_calls)
  /\ exists new,
       journal (fst (handle float_repr_whole ex_client ex_cache
                       (EvRawReactionAdd ex_reaction) ex_world_journal))
         ex_path
       = Some (lines_from float_repr_whole ex_clock 0 ex_calls ++ new)
       /\ Forall well_formed_line
            (lines_from float_repr_whole ex_clock 0 ex_calls ++ new)
       /\ length new <= 1
       /\ new <> [].
Proof.
  destruct ex_world_journal_lines as (Hj & Hwf & _).
  split; [exact Hj|].
  destruct (handle_keeps_journal_well_formed float_repr_whole ex_client
              ex_cache (EvRawReactionAdd ex_reaction) ex_world_journal
              (lines_from float_repr_whole ex_clock 0 ex_calls) Hj Hwf
              (ex_clock_renders 2)) as (new & H1 & H2 & H3).
  exists new. repeat split; try assumption.
  intros ->. rewrite app_nil_r in H1. vm_compute in H1. discriminate H1.
Defined.
